(** * run_asr_SLT_kfold.py: k-fold CTC fine-tuning script

    A shallow embedding of the fold orchestrator, the orthography
    normaliser, the example preparer, the duration filter, the padding
    collator and the training step of [run_asr_SLT_kfold.py], with the
    properties of its specification stated and settled against it.

    Conventions.
    - Python [str] is [string]; a character is a code point below 256.
    - Python [float] values (losses, durations) are idealised as exact
      rationals [Q]; integer tensors are lists of [Z].
    - A function that can raise returns [result]: [inl] carries the
      exception, [inr] the value.
    - Library calls with effects (printing, logging, backward passes) are
      recorded as events in a trace, in program order. *)

From Stdlib Require Import List Bool Arith ZArith QArith Lia.
From Stdlib Require Import Strings.Ascii Strings.String Numbers.DecimalString.
Import ListNotations.

Close Scope Q_scope.
Local Open Scope nat_scope.
Local Open Scope list_scope.
Local Open Scope string_scope.

(** ** Exceptions and results *)

Inductive exception : Type :=
| ValueError (msg : string)
| TypeError (msg : string)
| ZeroDivisionError (msg : string)
| AttributeError (msg : string)
| OSError (msg : string).

Definition result (A : Type) : Type := (exception + A)%type.

Definition ret {A : Type} (a : A) : result A := inr a.
Definition raise {A : Type} (e : exception) : result A := inl e.

Definition bind {A B : Type} (m : result A) (k : A -> result B) : result B :=
  match m with
  | inl e => inl e
  | inr a => k a
  end.

Notation "x <- m ;; k" := (bind m (fun x => k))
  (at level 61, m at next level, right associativity).

Definition is_ok {A : Type} (m : result A) : bool :=
  match m with inl _ => false | inr _ => true end.

(** ** Python string operations used by the script *)

Module Py.

(** [str.isspace] on one character, restricted to code points below 256:
    TAB..CR, FS..US, SPACE, NEL and NBSP. *)
Definition is_space (c : ascii) : bool :=
  let n := nat_of_ascii c in
  (Nat.leb 9 n && Nat.leb n 13) || (Nat.leb 28 n && Nat.leb n 32)
  || Nat.eqb n 133 || Nat.eqb n 160.

Definition flush (cur : string) : list string :=
  match cur with
  | EmptyString => []
  | _ => [cur]
  end.

(** [split_from cur s]: the fields of [s] separated by runs of white
    space, [cur] being the field read so far. *)
Fixpoint split_from (cur s : string) : list string :=
  match s with
  | EmptyString => flush cur
  | String c r =>
      if is_space c then (flush cur ++ split_from "" r)%list
      else split_from (cur ++ String c "") r
  end.

(** [text.split()] with no argument. *)
Definition split (s : string) : list string := split_from "" s.

(** [sep.join(ws)]. *)
Fixpoint join (sep : string) (ws : list string) : string :=
  match ws with
  | [] => ""
  | [w] => w
  | w :: rest => w ++ sep ++ join sep rest
  end.

(** A translation table as built by [str.maketrans]: code point to
    replacement string. *)
Definition table : Type := list (ascii * string).

Fixpoint lookup (c : ascii) (t : table) : option string :=
  match t with
  | [] => None
  | (k, v) :: t' => if Ascii.eqb c k then Some v else lookup c t'
  end.

Definition translate_char (t : table) (c : ascii) : string :=
  match lookup c t with
  | Some r => r
  | None => String c ""
  end.

(** [text.translate(t)]. *)
Fixpoint translate (t : table) (s : string) : string :=
  match s with
  | EmptyString => ""
  | String c r => translate_char t c ++ translate t r
  end.

Definition is_key (t : table) (c : ascii) : bool :=
  match lookup c t with Some _ => true | None => false end.

(** Membership in a [Set[str]]. *)
Definition mem (w : string) (ws : list string) : bool :=
  existsb (String.eqb w) ws.

(** [str.lower] on one character below 256: the letters A..Z and the
    capital letters of Latin-1 (192..222, the sign at 215 apart). *)
Definition lower_char (c : ascii) : ascii :=
  let n := nat_of_ascii c in
  if (Nat.leb 65 n && Nat.leb n 90)
     || (Nat.leb 192 n && Nat.leb n 222 && negb (Nat.eqb n 215))
  then ascii_of_nat (n + 32)
  else c.

Fixpoint lower (s : string) : string :=
  match s with
  | EmptyString => ""
  | String c r => String (lower_char c) (lower r)
  end.

(** [str(i)] for a non-negative integer. *)
Definition str_of_nat (n : nat) : string :=
  NilEmpty.string_of_uint (Nat.to_uint n).

Fixpoint starts_with (p s : string) : bool :=
  match p, s with
  | EmptyString, _ => true
  | String a p', String b s' => Ascii.eqb a b && starts_with p' s'
  | String _ _, EmptyString => false
  end.

(** [replace_skip old new skip s]: scan [s] left to right; [skip] counts
    the remaining characters of an occurrence of [old] already replaced. *)
Fixpoint replace_skip (old new : string) (skip : nat) (s : string) : string :=
  match s with
  | EmptyString => ""
  | String c r =>
      match skip with
      | S k => replace_skip old new k r
      | O =>
          if starts_with old s
          then new ++ replace_skip old new (String.length old - 1) r
          else String c (replace_skip old new 0 r)
      end
  end.

Fixpoint intersperse (new s : string) : string :=
  match s with
  | EmptyString => new
  | String c r => new ++ String c (intersperse new r)
  end.

(** [s.replace(old, new)]: every non-overlapping occurrence, leftmost
    first; an empty [old] matches between all characters. *)
Definition replace (s old new : string) : string :=
  match old with
  | EmptyString => intersperse new s
  | _ => replace_skip old new 0 s
  end.

Fixpoint all_chars (p : ascii -> bool) (s : string) : bool :=
  match s with
  | EmptyString => true
  | String c r => p c && all_chars p r
  end.

End Py.

(** ** Orthography *)

Record Orthography : Type := mkOrthography {
  do_lower_case : bool;
  vocab_file : option string;
  word_delimiter_token : option string;
  translation_table : Py.table;
  words_to_remove : list string
}.

Module OrthographyM.

(** [cls()] with the dataclass defaults. *)
Definition default : Orthography :=
  mkOrthography false None (Some "|") [] [].

(** [Orthography.from_name]; [script_dir] stands for
    [pathlib.Path(__file__).parent]. *)
Definition from_name (script_dir name : string) : result Orthography :=
  if String.eqb name "librispeech" then ret default
  else if String.eqb name "timit" then
    ret (mkOrthography true None (Some "|") [("-"%char, " ")] [])
  else if String.eqb name "buckwalter" then
    ret (mkOrthography false
           (Some (script_dir ++ "/vocab/buckwalter.json"))
           (Some "/") [("-"%char, " ")] ["sil"])
  else raise (ValueError ("Unsupported orthography: '" ++ name ++ "'.")).

Definition preprocess_for_training (o : Orthography) (text : string) : string :=
  let text :=
    if Nat.ltb 0 (List.length (translation_table o))
    then Py.translate (translation_table o) text
    else text in
  if Nat.eqb (List.length (words_to_remove o)) 0
  then Py.join " " (Py.split text)
  else Py.join " "
         (filter (fun w => negb (Py.mem w (words_to_remove o))) (Py.split text)).

Definition supported (name : string) : Prop :=
  name = "librispeech" \/ name = "timit" \/ name = "buckwalter".

End OrthographyM.

(** ** Configuration ([HfArgumentParser] dataclasses) *)

Record ModelArguments : Type := mkModelArguments {
  model_name_or_path : string;
  freeze_feature_extractor : bool;
  freeze_base_model : bool;
  verbose_logging : bool
}.

Record DataTrainingArguments : Type := mkDataTrainingArguments {
  target_feature_extractor_sampling_rate : bool;
  max_duration_in_seconds : option Q;
  orthography : string;
  preprocessing_num_workers : option nat
}.

Record TrainingArguments : Type := mkTrainingArguments {
  output_dir : string;
  n_gpu : Z;
  gradient_accumulation_steps : Z;
  load_best_model_at_end : bool;
  is_main_process : bool
}.

(** ** Logging *)

Inductive level : Type := DEBUG | INFO | WARNING.

Definition level_num (l : level) : nat :=
  match l with DEBUG => 10 | INFO => 20 | WARNING => 30 end.

(** [configure_logger]: the level the script's logger is set to. *)
Definition configure_logger (m : ModelArguments) (t : TrainingArguments) : level :=
  if verbose_logging m then DEBUG
  else if is_main_process t then INFO
  else WARNING.

(** The texts the script logs, kept structured (numbers unformatted). *)
Inductive message : Type :=
| FilteredOut (split_name : string) (count : Z) (threshold : Q)
| SplitSizes (n_train n_val : nat)
| UpdatedTranscripts (n : nat) (orth : string)
| UpdatedText (original updated : string).

Inductive event : Type :=
| Print (s : string)
| ReadCsv (path : string)
| Log (l : level) (m : message)
| PrepareDataset (n_train n_val : nat)
| FreezeFeatureExtractor
| FreezeBaseModel
| Train (i : nat) (dir : string)
| Predict (i : nat).

Definition trace : Type := list event.

(** [logger.<l>(m)]: emitted when [l] is enabled for the logger. *)
Definition log (logger : level) (l : level) (m : message) : trace :=
  if Nat.leb (level_num logger) (level_num l) then [Log l m] else [].

(** ** Example preparer *)

Record CorpusRecord : Type := mkCorpusRecord {
  file : string;
  split : nat;
  text : string
}.

Record Example : Type := mkExample {
  ex_file : string;
  ex_split : nat;
  ex_text : string;
  speech : list Q;
  sampling_rate : Z;
  duration_in_seconds : Q
}.

(** What the fold takes from the pretrained processor. *)
Record Processor : Type := mkProcessor {
  fe_sampling_rate : Z;
  vocab : list string;
  tok_do_lower_case : bool
}.

Module Prepare.

(** [target_sr] of [main]. *)
Definition target_sr (d : DataTrainingArguments) (p : Processor) : option Z :=
  if target_feature_extractor_sampling_rate d
  then Some (fe_sampling_rate p)
  else None.

(** [vocabulary_chars_str]: the one-character tokens of the vocabulary. *)
Fixpoint vocabulary_chars (toks : list string) : list ascii :=
  match toks with
  | [] => []
  | String c EmptyString :: r => c :: vocabulary_chars r
  | _ :: r => vocabulary_chars r
  end.

Definition in_vocabulary (ignorecase : bool) (chars : list ascii) (c : ascii) : bool :=
  existsb (fun v => if ignorecase
                    then Ascii.eqb (Py.lower_char c) (Py.lower_char v)
                    else Ascii.eqb c v) chars.

(** [vocabulary_text_cleaner.sub("", s)]: drop every character that is
    neither white space nor a vocabulary character. *)
Fixpoint clean (ignorecase : bool) (chars : list ascii) (s : string) : string :=
  match s with
  | EmptyString => ""
  | String c r =>
      if Py.is_space c || in_vocabulary ignorecase chars c
      then String c (clean ignorecase chars r)
      else clean ignorecase chars r
  end.

(** [len(example["speech"]) / target_sr]. *)
Definition duration (n : nat) (sr : option Z) : result Q :=
  match sr with
  | None =>
      raise (TypeError "unsupported operand type(s) for /: 'int' and 'NoneType'")
  | Some r =>
      if Z.eqb r 0 then raise (ZeroDivisionError "division by zero")
      else ret (inject_Z (Z.of_nat n) / inject_Z r)%Q
  end.

Section WithFold.

(** [librosa.load(file, sr=...)]. *)
Variable librosa_load : string -> Z -> result (list Q * Z).
Variable orth : Orthography.
Variable proc : Processor.
Variable data_args : DataTrainingArguments.

Definition text_updates : Type := list (string * string).

Definition prepare_example (row : CorpusRecord) (updates : text_updates)
  : result (Example * text_updates) :=
  loaded <- librosa_load (file row) 16000%Z ;;
  d <- duration (List.length (fst loaded)) (target_sr data_args proc) ;;
  let updated_text := OrthographyM.preprocess_for_training orth (text row) in
  let updated_text :=
    clean (tok_do_lower_case proc) (vocabulary_chars (vocab proc)) updated_text in
  if String.eqb updated_text (text row)
  then ret (mkExample (file row) (split row) (text row)
              (fst loaded) (snd loaded) d, updates)
  else ret (mkExample (file row) (split row) updated_text
              (fst loaded) (snd loaded) d,
            (updates ++ [(text row, updated_text)])%list).

(** [dataset.map(prepare_example, ...)]: row by row, in order. The
    columns [file] and [split], which the call removes, stay in the
    record here and are not read afterwards. *)
Fixpoint map_prepare (rows : list CorpusRecord) (updates : text_updates)
  : result (list Example * text_updates) :=
  match rows with
  | [] => ret ([], updates)
  | row :: rest =>
      r <- prepare_example row updates ;;
      rs <- map_prepare rest (snd r) ;;
      ret (fst r :: fst rs, snd rs)
  end.

End WithFold.

End Prepare.

(** ** Dataset filter *)

Module Filter.

Definition filter_by_max_duration (max_duration : Q) (e : Example) : bool :=
  Qle_bool (duration_in_seconds e) max_duration.

(** The warning of one split: sizes after and before filtering. *)
Definition warn_removed (logger : level) (name : string)
  (new_size old_size : nat) (max_duration : Q) : trace :=
  if Nat.ltb old_size new_size
  then log logger WARNING
         (FilteredOut name (Z.of_nat new_size - Z.of_nat old_size) max_duration)
  else [].

(** The [if data_args.max_duration_in_seconds is not None] block. *)
Definition filter_stage (logger : level) (max_duration : option Q)
  (train_dataset val_dataset : list Example)
  : trace * (list Example * list Example) :=
  match max_duration with
  | None => ([], (train_dataset, val_dataset))
  | Some T =>
      let old_train_size := List.length train_dataset in
      let old_val_size := List.length val_dataset in
      let train' := filter (filter_by_max_duration T) train_dataset in
      let val' := filter (filter_by_max_duration T) val_dataset in
      ((warn_removed logger "train" (List.length train') old_train_size T
        ++ warn_removed logger "validation" (List.length val') old_val_size T)%list,
       (train', val'))
  end.

End Filter.

(** ** Batch collator *)

Record Feature : Type := mkFeature {
  input_values : list Q;
  labels : list Z
}.

Inductive padding : Type := Longest | MaxLength | DoNotPad.

(** [labels_batch]: the padded ids and their attention mask. *)
Record LabelsBatch : Type := mkLabelsBatch {
  input_ids : list (list Z);
  attention_mask : list (list Z)
}.

Record DataCollatorCTCWithPadding : Type := mkCollator {
  c_padding : padding;
  max_length : option nat;
  max_length_labels : option nat;
  pad_to_multiple_of : option nat;
  pad_to_multiple_of_labels : option nat
}.

Module Collator.

Definition IGNORE : Z := (-100)%Z.

(** [mask.ne(1)]. *)
Definition ne1 (mask : list (list Z)) : list (list bool) :=
  map (map (fun m => negb (Z.eqb m 1))) mask.

Definition fill_row (v : Z) (row : list Z) (mask : list bool) : list Z :=
  map (fun xm : Z * bool => if snd xm then v else fst xm) (combine row mask).

(** [t.masked_fill(mask, v)] on a two-dimensional tensor. *)
Definition masked_fill (t : list (list Z)) (mask : list (list bool)) (v : Z)
  : list (list Z) :=
  map (fun rm : list Z * list bool => fill_row v (fst rm) (snd rm))
    (combine t mask).

Section WithProcessor.

Variable InputBatch : Type.
(** [processor.pad] on the input features and, inside
    [as_target_processor], on the label features. *)
Variable pad_inputs :
  padding -> option nat -> option nat -> list (list Q) -> result InputBatch.
Variable pad_labels :
  padding -> option nat -> option nat -> list (list Z) -> result LabelsBatch.

(** [DataCollatorCTCWithPadding.__call__]: the padded inputs and
    [batch["labels"]]. *)
Definition call (c : DataCollatorCTCWithPadding) (features : list Feature)
  : result (InputBatch * list (list Z)) :=
  let input_features := map input_values features in
  let label_features := map labels features in
  batch <- pad_inputs (c_padding c) (max_length c) (pad_to_multiple_of c)
             input_features ;;
  labels_batch <- pad_labels (c_padding c) (max_length_labels c)
                    (pad_to_multiple_of_labels c) label_features ;;
  ret (batch,
       masked_fill (input_ids labels_batch)
         (ne1 (attention_mask labels_batch)) IGNORE).

End WithProcessor.

(** The padding convention of the tokenizer: every sequence is extended
    on the right with [pad_id] to a common length [n], and the mask is 1
    on the original positions and 0 on the added ones. *)
Definition pads_right (pad_id : Z)
  (pad_labels : padding -> option nat -> option nat -> list (list Z)
                -> result LabelsBatch) : Prop :=
  forall p ml mult seqs lb,
    pad_labels p ml mult seqs = inr lb ->
    exists n,
      List.length (input_ids lb) = List.length seqs /\
      List.length (attention_mask lb) = List.length seqs /\
      forall i l, nth_error seqs i = Some l ->
        List.length l <= n /\
        nth_error (input_ids lb) i
          = Some (l ++ repeat pad_id (n - List.length l))%list /\
        nth_error (attention_mask lb) i
          = Some (repeat 1%Z (List.length l)
                  ++ repeat 0%Z (n - List.length l))%list.

(** A reference tokenizer [pad] following that convention, after the
    [transformers] implementation: the target length is the longest
    sequence or [max_length], rounded up to [pad_to_multiple_of]; longer
    sequences are left as they are, and rows of unequal length cannot be
    turned into a tensor. *)
Definition round_up (n : nat) (mult : option nat) : nat :=
  match mult with
  | Some (S k) => if Nat.eqb (n mod S k) 0 then n else (n / S k + 1) * S k
  | _ => n
  end.

Definition longest (seqs : list (list Z)) : nat :=
  fold_right (fun l m => Nat.max (List.length l) m) 0 seqs.

Definition target_length (p : padding) (ml mult : option nat)
  (seqs : list (list Z)) : nat :=
  match p with
  | Longest => round_up (longest seqs) mult
  | MaxLength =>
      match ml with
      | Some m => round_up m mult
      | None => longest seqs
      end
  | DoNotPad => 0
  end.

Definition pad_row (pad_id : Z) (n : nat) (l : list Z) : list Z :=
  (l ++ repeat pad_id (n - List.length l))%list.

Definition mask_row (n : nat) (l : list Z) : list Z :=
  (repeat 1%Z (List.length l) ++ repeat 0%Z (n - List.length l))%list.

Definition same_length (n : nat) (rows : list (list Z)) : bool :=
  forallb (fun r => Nat.eqb (List.length r) n) rows.

Definition reference_pad (pad_id : Z) (p : padding) (ml mult : option nat)
  (seqs : list (list Z)) : result LabelsBatch :=
  let n := target_length p ml mult seqs in
  let ids := map (pad_row pad_id n) seqs in
  let width := match ids with [] => 0 | r :: _ => List.length r end in
  if same_length width ids
  then ret (mkLabelsBatch ids (map (mask_row n) seqs))
  else raise (ValueError "Unable to create tensor").

End Collator.

Arguments Collator.call {InputBatch} pad_inputs pad_labels c features.

(** ** Training step *)

(** A tensor of floats, flattened; a scalar has one element. *)
Definition tensor : Type := list Q.

Record Model : Type := mkModel {
  (** [model.module.config.ctc_loss_reduction], when [model] is a
      replica wrapper with a [module] attribute *)
  module_ctc_loss_reduction : option string;
  (** [model.config.ctc_loss_reduction], when [model] has a [config]
      attribute *)
  config_ctc_loss_reduction : option string
}.

Record Inputs : Type := mkInputs {
  in_labels : list (list Z)
}.

Inductive backend : Type := NativeAmp | Apex | Deepspeed | PlainBackward.

Inductive step_event : Type :=
| ModelTrain
| PrepareInputs
| ComputeLoss (autocast : bool)
| Backward (b : backend) (loss : tensor).

Record CTCTrainer : Type := mkTrainer {
  args : TrainingArguments;
  use_cuda_amp : bool;
  use_apex : bool;
  deepspeed : bool
}.

Module Trainer.

Definition tsum (t : tensor) : Q := fold_right Qplus 0%Q t.

(** [loss.mean()]. *)
Definition mean (t : tensor) : tensor :=
  [(tsum t / inject_Z (Z.of_nat (List.length t)))%Q].

(** [(inputs["labels"] >= 0).sum()]. *)
Definition count_nonneg (ls : list (list Z)) : Z :=
  Z.of_nat (List.length (filter (fun x => Z.leb 0 x) (List.concat ls))).

(** [loss.sum() / (inputs["labels"] >= 0).sum()]. *)
Definition sum_normalised (t : tensor) (ls : list (list Z)) : tensor :=
  [(tsum t / inject_Z (count_nonneg ls))%Q].

(** [loss / n] for an integer [n]. *)
Definition tdiv (t : tensor) (n : Z) : tensor :=
  map (fun x => (x / inject_Z n)%Q) t.

Definition getattr (name : string) (a : option string) : result string :=
  match a with
  | Some v => ret v
  | None => raise (AttributeError name)
  end.

(** The [if self.args.n_gpu > 1] block. *)
Definition reduce_loss (self : CTCTrainer) (model : Model) (inputs : Inputs)
  (loss : tensor) : result tensor :=
  if Z.ltb 1 (n_gpu (args self)) then
    r <- getattr "module" (module_ctc_loss_reduction model) ;;
    if String.eqb r "mean" then ret (mean loss)
    else if String.eqb r "sum" then ret (sum_normalised loss (in_labels inputs))
    else
      c <- getattr "config" (config_ctc_loss_reduction model) ;;
      raise (ValueError (c ++ " is not valid. Choose one of ['mean', 'sum']"))
  else ret loss.

(** The [if self.args.gradient_accumulation_steps > 1] block. *)
Definition accumulate (self : CTCTrainer) (loss : tensor) : tensor :=
  if Z.ltb 1 (gradient_accumulation_steps (args self))
  then tdiv loss (gradient_accumulation_steps (args self))
  else loss.

Definition select_backend (self : CTCTrainer) : backend :=
  if use_cuda_amp self then NativeAmp
  else if use_apex self then Apex
  else if deepspeed self then Deepspeed
  else PlainBackward.

Section WithLoss.

(** [self.compute_loss(model, inputs)], under [autocast] or not. *)
Variable compute_loss : bool -> Model -> Inputs -> result tensor.

(** [CTCTrainer.training_step]: the events performed and the detached
    loss returned (or the exception raised). *)
Definition training_step (self : CTCTrainer) (model : Model) (inputs : Inputs)
  : list step_event * result tensor :=
  let before := [ModelTrain; PrepareInputs; ComputeLoss (use_cuda_amp self)] in
  match compute_loss (use_cuda_amp self) model inputs with
  | inl e => (before, inl e)
  | inr loss =>
      match reduce_loss self model inputs loss with
      | inl e => (before, inl e)
      | inr loss =>
          let loss := accumulate self loss in
          ((before ++ [Backward (select_backend self) loss])%list, inr loss)
      end
  end.

End WithLoss.

Definition is_backward (e : step_event) : bool :=
  match e with Backward _ _ => true | _ => false end.

End Trainer.

(** ** Fold orchestrator *)

Module Main.

Definition k : nat := 4.

(** [range(a, b)]. *)
Definition range (a b : nat) : list nat := seq a (b - a).

(** The [if i == 0 ... else ...] update of [training_args.output_dir]. *)
Definition next_output_dir (i : nat) (dir : string) : string :=
  if Nat.eqb i 0
  then dir ++ "_fold_" ++ Py.str_of_nat i
  else Py.replace dir ("_fold_" ++ Py.str_of_nat (i - 1))
                      ("_fold_" ++ Py.str_of_nat i).

Definition repr_workers (w : option nat) : string :=
  match w with
  | None => "None"
  | Some n => Py.str_of_nat n
  end.

Section WithWorld.

(** [pathlib.Path(__file__).parent]. *)
Variable script_dir : string.
(** The table [pd.read_csv] returns, columns renamed. *)
Variable df : list CorpusRecord.
(** The processor [Wav2Vec2Processor.from_pretrained] returns. *)
Variable proc : Processor.
Variable librosa_load : string -> Z -> result (list Q * Z).

Variable model_args : ModelArguments.
Variable data_args : DataTrainingArguments.
Variable training_args : TrainingArguments.

Definition debug_updates (logger : level) (ups : Prepare.text_updates) : trace :=
  match logger with
  | DEBUG => map (fun u : string * string => Log DEBUG (UpdatedText (fst u) (snd u))) ups
  | _ => []
  end.

Definition freeze : trace :=
  ((if freeze_feature_extractor model_args then [FreezeFeatureExtractor] else [])
   ++ (if freeze_base_model model_args then [FreezeBaseModel] else []))%list.

(** One iteration of the fold loop, entered with [training_args.output_dir]
    equal to [dir]; returns the directory it leaves there. The calls
    after the preparation ([trainer.train], [trainer.predict] and
    [compute_metrics] among them) are recorded as events and taken to
    return. *)
Definition fold (logger : level) (orth : Orthography) (i : nat) (dir : string)
  : trace * result string :=
  let t0 := [Print ("Fold " ++ Py.str_of_nat i)] in
  let train_rows := filter (fun r => negb (Nat.eqb (split r) i)) df in
  let val_rows := filter (fun r => Nat.eqb (split r) i) df in
  let prep := Prepare.map_prepare librosa_load orth proc data_args in
  match prep train_rows [] with
  | inl e => (t0, inl e)
  | inr (train_dataset, ups) =>
      match prep val_rows ups with
      | inl e => (t0, inl e)
      | inr (val_dataset, ups) =>
          let filtered :=
            Filter.filter_stage logger (max_duration_in_seconds data_args)
              train_dataset val_dataset in
          let train_dataset := fst (snd filtered) in
          let val_dataset := snd (snd filtered) in
          let n_train := List.length train_dataset in
          let n_val := List.length val_dataset in
          let dir' := next_output_dir i dir in
          ((t0 ++ fst filtered
            ++ log logger INFO (SplitSizes n_train n_val)
            ++ log logger WARNING
                 (UpdatedTranscripts (List.length ups) (orthography data_args))
            ++ debug_updates logger ups
            ++ [PrepareDataset n_train n_val]
            ++ freeze
            ++ [Print ("Output folder: " ++ dir'); Train i dir']
            ++ (if load_best_model_at_end training_args then [Predict i] else []))%list,
           inr dir')
      end
  end.

(** The [for i in ...] loop, threading [training_args.output_dir]. *)
Fixpoint run_folds (logger : level) (orth : Orthography) (idxs : list nat)
  (dir : string) : trace * result string :=
  match idxs with
  | [] => ([], inr dir)
  | i :: rest =>
      match fold logger orth i dir with
      | (t, inl e) => (t, inl e)
      | (t, inr dir') =>
          let r := run_folds logger orth rest dir' in
          ((t ++ fst r)%list, snd r)
      end
  end.

Definition before_folds : trace :=
  [Print ("data_args.preprocessing_num_workers "
          ++ repr_workers (preprocessing_num_workers data_args));
   ReadCsv "../wav2vec2-finetune/finnish_df.csv"].

(** The loop of [main] over [range(first, last)]. *)
Definition main_range (first last : nat) : trace * result string :=
  let logger := configure_logger model_args training_args in
  match OrthographyM.from_name script_dir (Py.lower (orthography data_args)) with
  | inl e => (before_folds, inl e)
  | inr orth =>
      let r := run_folds logger orth (range first last) (output_dir training_args) in
      ((before_folds ++ fst r)%list, snd r)
  end.

(** [main]: the loop is [for i in range(2, k)]. *)
Definition main : trace * result string := main_range 2 k.

End WithWorld.

(** The fold index and directory of every training run in a trace. *)
Fixpoint train_dirs (t : trace) : list (nat * string) :=
  match t with
  | [] => []
  | Train i d :: r => (i, d) :: train_dirs r
  | _ :: r => train_dirs r
  end.

End Main.

(** ** Predicates of the specification *)

Definition not_space (c : ascii) : bool := negb (Py.is_space c).

(** A field as [split] produces them: not empty, no white space. *)
Definition is_word (w : string) : Prop :=
  w <> "" /\ Py.all_chars not_space w = true.

Definition not_key (t : Py.table) (c : ascii) : bool := negb (Py.is_key t c).

(** A table whose replacement strings, and the separator written by
    [join], contain no character the table translates. *)
Definition stable_table (t : Py.table) : Prop :=
  (forall c, Py.all_chars (not_key t) (Py.translate_char t c) = true)
  /\ not_key t " "%char = true.

(** The number of elements of a list that satisfy [p]. *)
Fixpoint count {A : Type} (p : A -> bool) (l : list A) : nat :=
  match l with
  | [] => 0
  | a :: r => (if p a then 1 else 0) + count p r
  end.

(** The label positions that do not hold the ignore sentinel. *)
Definition count_non_ignored (ls : list (list Z)) : Z :=
  Z.of_nat (count (fun x => negb (Z.eqb x Collator.IGNORE)) (List.concat ls)).

(** An example of the given duration, for the concrete cases below. *)
Definition example_of_duration (name : string) (d : Q) : Example :=
  mkExample name 0 "" [] 16000%Z d.

(** A small corpus and configuration on which every fold prepares and
    trains, for the concrete runs of the orchestrator below. *)
Definition demo_df : list CorpusRecord :=
  [mkCorpusRecord "a.wav" 0 "a b"; mkCorpusRecord "b.wav" 1 "b a";
   mkCorpusRecord "c.wav" 2 "a"; mkCorpusRecord "d.wav" 3 "b"].

Definition demo_main (first last : nat) (dir : string) : trace * result string :=
  Main.main_range "/repo" demo_df (mkProcessor 16000%Z ["a"; "b"] false)
    (fun _ _ => inr ([1%Q; 2%Q], 16000%Z))
    (mkModelArguments "m" true false false)
    (mkDataTrainingArguments true None "librispeech" None)
    (mkTrainingArguments dir 1%Z 1%Z false true)
    first last.

(** The two stages of [preprocess_for_training]: the guarded
    translation, and the words [join] receives. *)
Definition translated (o : Orthography) (s : string) : string :=
  if Nat.ltb 0 (List.length (translation_table o))
  then Py.translate (translation_table o) s
  else s.

Definition kept (o : Orthography) (ws : list string) : list string :=
  if Nat.eqb (List.length (words_to_remove o)) 0
  then ws
  else filter (fun w => negb (Py.mem w (words_to_remove o))) ws.

(** ** Metrics *)

Module Metrics.

(** The first statement of [compute_metrics]:
    [pred.label_ids[pred.label_ids == -100] = processor.tokenizer.pad_token_id]. *)
Definition restore_pad (pad_token_id : Z) (label_ids : list (list Z))
  : list (list Z) :=
  map (map (fun x => if Z.eqb x (-100) then pad_token_id else x)) label_ids.

End Metrics.

(** The events of a trace selected by [f], in order. *)
Definition collect {A : Type} (f : event -> option A) (t : trace) : list A :=
  flat_map (fun e => match f e with Some a => [a] | None => [] end) t.

Definition pick_train (e : event) : option (nat * string) :=
  match e with Train i d => Some (i, d) | _ => None end.

Definition pick_sizes (e : event) : option (nat * nat) :=
  match e with PrepareDataset n m => Some (n, m) | _ => None end.

(** The folds trained in a trace, and the split sizes handed to
    [prepare_dataset]. *)
Definition trained_folds (t : trace) : list nat := map fst (Main.train_dirs t).

Definition prepared_sizes (t : trace) : list (nat * nat) := collect pick_sizes t.

(** A selection that ignores everything but the dataset and training
    events. *)
Definition quiet {A : Type} (f : event -> option A) : Prop :=
  (forall l m, f (Log l m) = None)
  /\ (forall s, f (Print s) = None)
  /\ (forall p, f (ReadCsv p) = None)
  /\ f FreezeFeatureExtractor = None
  /\ f FreezeBaseModel = None
  /\ (forall i, f (Predict i) = None).

Definition no_underscore (s : string) : bool :=
  Py.all_chars (fun c => negb (Ascii.eqb c "_")) s.

(** The rows of the corpus a fold trains on, and those it validates
    on. *)
Definition train_rows (i : nat) (df : list CorpusRecord) : list CorpusRecord :=
  filter (fun r => negb (Nat.eqb (split r) i)) df.

Definition val_rows (i : nat) (df : list CorpusRecord) : list CorpusRecord :=
  filter (fun r => Nat.eqb (split r) i) df.

(** The labels of a feature extended to width [n] with the sentinel,
    and with the pad token id. *)
Definition ignore_padded (n : nat) (f : Feature) : list Z :=
  (labels f ++ repeat Collator.IGNORE (n - List.length (labels f)))%list.

Definition id_padded (pad_id : Z) (n : nat) (f : Feature) : list Z :=
  (labels f ++ repeat pad_id (n - List.length (labels f)))%list.

(** The assertion of [prepare_dataset]:
    [len(set(batch["sampling_rate"])) == 1]. *)
Definition rates_consistent (rates : list Z) : bool :=
  Nat.eqb (List.length (nodup Z.eq_dec rates)) 1.

(** * Properties *)

(** ** Strings *)

Lemma append_nil_r (s : string) : s ++ "" = s.
Proof. induction s as [|c s IH]; simpl; [reflexivity | now rewrite IH]. Qed.

Lemma append_assoc (a b c : string) : (a ++ b) ++ c = a ++ (b ++ c).
Proof. induction a as [|x a IH]; simpl; [reflexivity | now rewrite IH]. Qed.

Lemma all_chars_app (p : ascii -> bool) (a b : string) :
  Py.all_chars p (a ++ b) = Py.all_chars p a && Py.all_chars p b.
Proof.
  induction a as [|x a IH]; simpl; [reflexivity|].
  now rewrite IH, andb_assoc.
Qed.

Lemma split_from_word (w : string) :
  forall cur rest,
    Py.all_chars not_space w = true ->
    Py.split_from cur (w ++ rest) = Py.split_from (cur ++ w) rest.
Proof.
  induction w as [|c w IH]; intros cur rest Hw; simpl.
  - now rewrite append_nil_r.
  - simpl in Hw. apply andb_true_iff in Hw as [Hc Hw].
    unfold not_space in Hc. apply negb_true_iff in Hc. rewrite Hc.
    rewrite IH by assumption. now rewrite append_assoc.
Qed.

Lemma flush_word (w : string) : w <> "" -> Py.flush w = [w].
Proof. destruct w; [congruence | reflexivity]. Qed.

Lemma join_cons (w w' : string) (ws : list string) :
  Py.join " " (w :: w' :: ws) = w ++ String " " (Py.join " " (w' :: ws)).
Proof. reflexivity. Qed.

Lemma split_from_space (cur r : string) :
  Py.split_from cur (String " " r) = (Py.flush cur ++ Py.split_from "" r)%list.
Proof. reflexivity. Qed.

Lemma split_join (ws : list string) :
  Forall is_word ws -> Py.split (Py.join " " ws) = ws.
Proof.
  unfold Py.split. induction 1 as [|w ws [Hne Hw] Hws IH]; [reflexivity|].
  destruct ws as [|w' ws'].
  - simpl. rewrite <- (append_nil_r w) at 1.
    rewrite split_from_word by assumption. simpl. now apply flush_word.
  - rewrite join_cons, split_from_word by assumption.
    change ("" ++ w) with w.
    rewrite split_from_space, IH, flush_word by assumption.
    reflexivity.
Qed.

Lemma flush_Forall (P : string -> Prop) (cur : string) :
  (cur <> "" -> P cur) -> Forall P (Py.flush cur).
Proof.
  intros H. destruct cur; simpl; [constructor|].
  constructor; [apply H; discriminate | constructor].
Qed.

Lemma append_char_nonempty (cur : string) (c : ascii) : cur ++ String c "" <> "".
Proof. destruct cur; discriminate. Qed.

(** Every field of [split] is made of characters of the text that are
    not white space. *)
Lemma split_from_chars (p : ascii -> bool) (s : string) :
  forall cur,
    Py.all_chars p cur = true ->
    Py.all_chars (fun c => Py.is_space c || p c) s = true ->
    Forall (fun w => Py.all_chars p w = true) (Py.split_from cur s).
Proof.
  induction s as [|c s IH]; intros cur Hcur Hs; simpl.
  - apply flush_Forall. auto.
  - simpl in Hs. apply andb_true_iff in Hs as [Hc Hs].
    destruct (Py.is_space c) eqn:E.
    + apply Forall_app. split; [apply flush_Forall; auto|].
      apply IH; [reflexivity | assumption].
    + apply IH; [|assumption].
      rewrite all_chars_app, Hcur. simpl in *. now rewrite Hc.
Qed.

Lemma split_from_nonempty (s : string) :
  forall cur, Forall (fun w => w <> "") (Py.split_from cur s).
Proof.
  induction s as [|c s IH]; intros cur; simpl.
  - apply flush_Forall. auto.
  - destruct (Py.is_space c).
    + apply Forall_app. split; [apply flush_Forall; auto | apply IH].
    + apply IH.
Qed.

Lemma all_chars_true (p : ascii -> bool) (s : string) :
  (forall c, p c = true) -> Py.all_chars p s = true.
Proof.
  intros H. induction s as [|c s IH]; simpl; [reflexivity|].
  now rewrite H, IH.
Qed.

Lemma split_words (s : string) : Forall is_word (Py.split s).
Proof.
  unfold Py.split.
  pose proof (split_from_nonempty s "") as Hne.
  assert (Hch : Forall (fun w => Py.all_chars not_space w = true)
                  (Py.split_from "" s)).
  { apply split_from_chars; [reflexivity|].
    apply all_chars_true. intros c. unfold not_space.
    now destruct (Py.is_space c). }
  rewrite Forall_forall in *. intros w Hw. split; auto.
Qed.

Lemma all_chars_weaken (p q : ascii -> bool) (s : string) :
  (forall c, p c = true -> q c = true) ->
  Py.all_chars p s = true -> Py.all_chars q s = true.
Proof.
  intros H. induction s as [|c s IH]; simpl; [reflexivity|].
  intros Hs. apply andb_true_iff in Hs as [Hc Hs].
  now rewrite (H _ Hc), IH.
Qed.

Lemma join_chars (p : ascii -> bool) (ws : list string) :
  p " "%char = true ->
  Forall (fun w => Py.all_chars p w = true) ws ->
  Py.all_chars p (Py.join " " ws) = true.
Proof.
  intros Hsp. induction 1 as [|w ws Hw Hws IH]; [reflexivity|].
  destruct ws as [|w' ws']; [exact Hw|].
  rewrite join_cons, all_chars_app, Hw. cbn [Py.all_chars andb].
  now rewrite Hsp, IH.
Qed.

Lemma translate_chars (p : ascii -> bool) (t : Py.table) (s : string) :
  (forall c, Py.all_chars p (Py.translate_char t c) = true) ->
  Py.all_chars p (Py.translate t s) = true.
Proof.
  intros H. induction s as [|c s IH]; simpl; [reflexivity|].
  now rewrite all_chars_app, H, IH.
Qed.

Lemma translate_id (t : Py.table) (s : string) :
  Py.all_chars (not_key t) s = true -> Py.translate t s = s.
Proof.
  induction s as [|c s IH]; simpl; [reflexivity|].
  intros Hs. apply andb_true_iff in Hs as [Hc Hs].
  rewrite IH by assumption.
  unfold not_key, Py.is_key in Hc. unfold Py.translate_char.
  destruct (Py.lookup c t); [discriminate | reflexivity].
Qed.

Lemma filter_idem {A : Type} (f : A -> bool) (l : list A) :
  filter f (filter f l) = filter f l.
Proof.
  induction l as [|a l IH]; simpl; [reflexivity|].
  destruct (f a) eqn:E; simpl; [rewrite E, IH|]; auto.
Qed.

Lemma Forall_filter {A : Type} (P : A -> Prop) (f : A -> bool) (l : list A) :
  Forall P l -> Forall P (filter f l).
Proof.
  induction 1 as [|a l Ha Hl IH]; simpl; [constructor|].
  destruct (f a); [constructor|]; assumption.
Qed.

(** ** Orthography normaliser *)

Section Preprocess.

Variable o : Orthography.
Hypothesis Hstable : stable_table (translation_table o).

Lemma preprocess_unfold (s : string) :
  OrthographyM.preprocess_for_training o s
  = Py.join " " (kept o (Py.split (translated o s))).
Proof.
  unfold OrthographyM.preprocess_for_training, kept, translated.
  now destruct (Nat.eqb (List.length (words_to_remove o)) 0).
Qed.

Lemma translated_no_key (s : string) :
  Py.all_chars (not_key (translation_table o)) (translated o s) = true.
Proof.
  unfold translated. destruct (translation_table o) as [|kv t] eqn:E.
  - simpl. now apply all_chars_true.
  - simpl. apply translate_chars.
    destruct Hstable as [H _]. exact H.
Qed.

Lemma translated_fixed (s : string) :
  Py.all_chars (not_key (translation_table o)) s = true -> translated o s = s.
Proof.
  intros H. unfold translated.
  destruct (Nat.ltb 0 (List.length (translation_table o))); [|reflexivity].
  now apply translate_id.
Qed.

Lemma kept_Forall (P : string -> Prop) (ws : list string) :
  Forall P ws -> Forall P (kept o ws).
Proof.
  intros H. unfold kept.
  destruct (Nat.eqb (List.length (words_to_remove o)) 0); [assumption|].
  now apply Forall_filter.
Qed.

Lemma kept_idem (ws : list string) : kept o (kept o ws) = kept o ws.
Proof.
  unfold kept.
  destruct (Nat.eqb (List.length (words_to_remove o)) 0); [reflexivity|].
  apply filter_idem.
Qed.

(** Normalising a normalised text changes nothing, for every policy with
    a stable table. *)
Lemma preprocess_idempotent_stable (s : string) :
  OrthographyM.preprocess_for_training o
    (OrthographyM.preprocess_for_training o s)
  = OrthographyM.preprocess_for_training o s.
Proof.
  rewrite !preprocess_unfold.
  set (ws := kept o (Py.split (translated o s))).
  assert (Hwords : Forall is_word ws).
  { apply kept_Forall, split_words. }
  assert (Hkeys : Forall (fun w => Py.all_chars (not_key (translation_table o)) w = true) ws).
  { apply kept_Forall. apply split_from_chars; [reflexivity|].
    eapply all_chars_weaken; [|apply translated_no_key].
    intros c Hc. rewrite Hc. apply orb_true_r. }
  rewrite translated_fixed.
  - rewrite split_join by assumption. unfold ws. now rewrite kept_idem.
  - apply join_chars; [|assumption]. now destruct Hstable.
Qed.

End Preprocess.

Lemma hyphen_table_stable : stable_table [("-"%char, " ")].
Proof.
  split; [|reflexivity].
  intros c. unfold Py.translate_char. simpl.
  destruct (Ascii.eqb c "-") eqn:E; [reflexivity|].
  simpl. unfold not_key, Py.is_key. simpl. now rewrite E.
Qed.

Lemma empty_table_stable : stable_table [].
Proof. split; [intros c|]; reflexivity. Qed.

Lemma from_name_stable (script_dir name : string) (o : Orthography) :
  OrthographyM.from_name script_dir name = inr o ->
  stable_table (translation_table o).
Proof.
  unfold OrthographyM.from_name, ret, raise.
  destruct (String.eqb name "librispeech");
    [intros [= <-]; apply empty_table_stable|].
  destruct (String.eqb name "timit");
    [intros [= <-]; apply hyphen_table_stable|].
  destruct (String.eqb name "buckwalter");
    [intros [= <-]; apply hyphen_table_stable|].
  discriminate.
Qed.

Lemma from_name_supported (script_dir name : string) :
  OrthographyM.supported name ->
  exists o, OrthographyM.from_name script_dir name = inr o.
Proof.
  intros [-> | [-> | ->]]; eexists; reflexivity.
Qed.

(** C4. For every supported orthography name, [from_name] returns a
    policy, and preprocessing with that policy is idempotent: applying
    [preprocess_for_training] to its own output gives that output back,
    for every text. *)
Theorem preprocess_idempotent (script_dir name : string) :
  OrthographyM.supported name ->
  exists o,
    OrthographyM.from_name script_dir name = inr o /\
    forall t,
      OrthographyM.preprocess_for_training o
        (OrthographyM.preprocess_for_training o t)
      = OrthographyM.preprocess_for_training o t.
Proof.
  intros Hs. destruct (from_name_supported script_dir name Hs) as [o Ho].
  exists o. split; [exact Ho|].
  intros t. apply preprocess_idempotent_stable.
  eapply from_name_stable; eassumption.
Qed.

Lemma preprocess_idempotent_witness :
  OrthographyM.supported "buckwalter" /\
  exists o,
    OrthographyM.from_name "/repo" "buckwalter" = inr o /\
    forall t,
      OrthographyM.preprocess_for_training o
        (OrthographyM.preprocess_for_training o t)
      = OrthographyM.preprocess_for_training o t.
Proof.
  assert (H : OrthographyM.supported "buckwalter") by (right; right; reflexivity).
  split; [exact H | exact (preprocess_idempotent "/repo" "buckwalter" H)].
Defined.

Example preprocess_buckwalter :
  OrthographyM.preprocess_for_training
    (mkOrthography false None (Some "/") [("-"%char, " ")] ["sil"])
    " sil hello-world  sil-x " = "hello world x".
Proof. reflexivity. Qed.

(** C9. [from_name] raises [ValueError] for every name outside
    "librispeech", "timit" and "buckwalter" and returns a policy for
    each of these three. It is a function of its arguments alone, and
    [main] calls it once, before the fold loop: when the lower-cased
    configured name is unsupported, [main] stops with that error after
    the events that precede the call, and no fold has started. *)
Theorem from_name_unsupported :
  (forall script_dir name,
     ~ OrthographyM.supported name ->
     OrthographyM.from_name script_dir name
     = inl (ValueError ("Unsupported orthography: '" ++ name ++ "'.")))
  /\ (forall script_dir name,
        OrthographyM.supported name ->
        exists o, OrthographyM.from_name script_dir name = inr o)
  /\ (forall script_dir df proc load margs dargs targs,
        ~ OrthographyM.supported (Py.lower (orthography dargs)) ->
        Main.main script_dir df proc load margs dargs targs
        = (Main.before_folds dargs,
           inl (ValueError ("Unsupported orthography: '"
                            ++ Py.lower (orthography dargs) ++ "'.")))).
Proof.
  assert (H : forall script_dir name,
             ~ OrthographyM.supported name ->
             OrthographyM.from_name script_dir name
             = inl (ValueError ("Unsupported orthography: '" ++ name ++ "'."))).
  { intros script_dir name Hn. unfold OrthographyM.from_name.
    destruct (String.eqb_spec name "librispeech") as [E|_];
      [exfalso; apply Hn; left; exact E|].
    destruct (String.eqb_spec name "timit") as [E|_];
      [exfalso; apply Hn; right; left; exact E|].
    destruct (String.eqb_spec name "buckwalter") as [E|_];
      [exfalso; apply Hn; right; right; exact E|].
    reflexivity. }
  split; [exact H|]. split; [exact from_name_supported|].
  intros script_dir df proc load margs dargs targs Hn.
  unfold Main.main, Main.main_range. now rewrite (H script_dir _ Hn).
Qed.

Lemma from_name_unsupported_witness :
  OrthographyM.from_name "/repo" "TIMIT"
  = inl (ValueError "Unsupported orthography: 'TIMIT'.")
  /\ (exists o, OrthographyM.from_name "/repo" "timit" = inr o)
  /\ Main.main "/repo" [] (mkProcessor 16000%Z [] false)
       (fun _ _ => inr ([], 16000%Z))
       (mkModelArguments "m" true false true)
       (mkDataTrainingArguments false None "Klingon" None)
       (mkTrainingArguments "run" 1%Z 1%Z false true)
     = ([Print "data_args.preprocessing_num_workers None";
         ReadCsv "../wav2vec2-finetune/finnish_df.csv"],
        inl (ValueError "Unsupported orthography: 'klingon'.")).
Proof.
  destruct from_name_unsupported as [H1 [H2 H3]].
  split; [|split].
  - apply (H1 "/repo" "TIMIT").
    intros [E | [E | E]]; discriminate E.
  - apply (H2 "/repo" "timit"). right; left; reflexivity.
  - apply (H3 "/repo" [] (mkProcessor 16000%Z [] false)
             (fun _ _ => inr ([], 16000%Z))
             (mkModelArguments "m" true false true)
             (mkDataTrainingArguments false None "Klingon" None)
             (mkTrainingArguments "run" 1%Z 1%Z false true)).
    intros [E | [E | E]]; discriminate E.
Defined.

(** ** Dataset filter *)

Lemma count_filter {A : Type} (p : A -> bool) (l : list A) :
  List.length (filter p l) = count p l.
Proof.
  induction l as [|a l IH]; simpl; [reflexivity|].
  destruct (p a); simpl; now rewrite IH.
Qed.

(** C6. With a threshold [T] configured, the filter keeps exactly the
    examples whose duration is at most [T], in both splits: an example
    is in the output iff it is in the input with duration <= T, an
    example of duration exactly [T] is kept, and the output size is the
    number of examples with duration <= T. *)
Theorem filter_keeps_within_threshold (logger : level) (T : Q)
  (train_dataset val_dataset : list Example) :
  let out := snd (Filter.filter_stage logger (Some T) train_dataset val_dataset) in
  let within := fun e => Qle_bool (duration_in_seconds e) T in
  (forall e, In e (fst out)
             <-> In e train_dataset /\ (duration_in_seconds e <= T)%Q)
  /\ (forall e, In e (snd out)
                <-> In e val_dataset /\ (duration_in_seconds e <= T)%Q)
  /\ (forall e, In e train_dataset ->
                (duration_in_seconds e == T)%Q -> In e (fst out))
  /\ List.length (fst out) = count within train_dataset
  /\ List.length (snd out) = count within val_dataset.
Proof.
  simpl.
  assert (H : forall ds e,
             In e (filter (Filter.filter_by_max_duration T) ds)
             <-> In e ds /\ (duration_in_seconds e <= T)%Q).
  { intros ds e. rewrite filter_In. unfold Filter.filter_by_max_duration.
    now rewrite Qle_bool_iff. }
  split; [apply H|]. split; [apply H|].
  split; [|split; apply count_filter].
  intros e Hin Heq. apply H. split; [assumption|].
  rewrite Heq. apply Qle_refl.
Qed.

Example filter_boundary :
  snd (Filter.filter_stage WARNING (Some 2%Q)
         [example_of_duration "a" 1%Q; example_of_duration "b" 2%Q;
          example_of_duration "c" (5 # 2)%Q] [])
  = ([example_of_duration "a" 1%Q; example_of_duration "b" 2%Q], []).
Proof. reflexivity. Qed.

Lemma warn_removed_silent (logger : level) (name : string)
  (ds : list Example) (T : Q) :
  Filter.warn_removed logger name
    (List.length (filter (Filter.filter_by_max_duration T) ds))
    (List.length ds) T = [].
Proof.
  unfold Filter.warn_removed.
  pose proof (filter_length_le (Filter.filter_by_max_duration T) ds) as Hle.
  destruct (Nat.ltb_spec (List.length ds)
              (List.length (filter (Filter.filter_by_max_duration T) ds)));
    [lia | reflexivity].
Qed.

(** The filter stage logs nothing, whatever it removes. *)
Lemma filter_stage_silent (logger : level) (T : option Q)
  (train_dataset val_dataset : list Example) :
  fst (Filter.filter_stage logger T train_dataset val_dataset) = [].
Proof.
  destruct T as [T|]; [|reflexivity].
  simpl. now rewrite !warn_removed_silent.
Qed.

(** C7. The filter stage at a threshold of 2 seconds on a training
    split with durations 1 and 5: one example is removed and no warning
    is logged, although the logger emits warnings. *)
Theorem filter_removal_not_reported :
  let train := [example_of_duration "a" 1%Q; example_of_duration "b" 5%Q] in
  let r := Filter.filter_stage DEBUG (Some 2%Q) train [] in
  List.length train - List.length (fst (snd r)) = 1
  /\ fst r = []
  /\ log DEBUG WARNING (FilteredOut "train" 1%Z 2%Q)
     = [Log WARNING (FilteredOut "train" 1%Z 2%Q)].
Proof. repeat split. Qed.

(** C8, as stated: a threshold of 0 does not exclude an example whose
    duration is 0. *)
Lemma threshold_zero_keeps_empty_audio :
  ~ (forall train_dataset,
       fst (snd (Filter.filter_stage WARNING (Some 0%Q) train_dataset [])) = []).
Proof.
  intros H. specialize (H [example_of_duration "empty.wav" 0%Q]).
  discriminate H.
Qed.

(** C8, amended. A threshold of 0 is not treated as an absent one: the
    filter runs and returns normally, logging nothing. In each split it
    keeps exactly the examples of duration at most 0: every example of
    positive duration is excluded, every example of duration 0 is
    retained, and a dataset of positive durations only is emptied. *)
Theorem threshold_zero_keeps_only_zero_duration (logger : level)
  (train_dataset val_dataset : list Example) :
  exists train' val',
    Filter.filter_stage logger (Some 0%Q) train_dataset val_dataset
    = ([], (train', val'))
    /\ (forall e, In e train'
                  <-> In e train_dataset /\ (duration_in_seconds e <= 0)%Q)
    /\ (forall e, In e val'
                  <-> In e val_dataset /\ (duration_in_seconds e <= 0)%Q)
    /\ (forall e, (0 < duration_in_seconds e)%Q ->
                  ~ In e train' /\ ~ In e val')
    /\ (forall e, (duration_in_seconds e == 0)%Q ->
                  (In e train_dataset -> In e train')
                  /\ (In e val_dataset -> In e val'))
    /\ (Forall (fun e => (0 < duration_in_seconds e)%Q) train_dataset ->
        train' = [])
    /\ (Forall (fun e => (0 < duration_in_seconds e)%Q) val_dataset ->
        val' = []).
Proof.
  assert (Hin : forall ds e,
             In e (filter (Filter.filter_by_max_duration 0%Q) ds)
             <-> In e ds /\ (duration_in_seconds e <= 0)%Q).
  { intros ds e. rewrite filter_In. unfold Filter.filter_by_max_duration.
    now rewrite Qle_bool_iff. }
  assert (Hpos : forall ds,
             Forall (fun e => (0 < duration_in_seconds e)%Q) ds ->
             filter (Filter.filter_by_max_duration 0%Q) ds = []).
  { induction 1 as [|e ds He Hds IH]; simpl; [reflexivity|].
    unfold Filter.filter_by_max_duration at 1.
    destruct (Qle_bool (duration_in_seconds e) 0) eqn:E; [|exact IH].
    apply Qle_bool_iff in E. exfalso. eapply Qlt_not_le; eassumption. }
  exists (filter (Filter.filter_by_max_duration 0%Q) train_dataset),
         (filter (Filter.filter_by_max_duration 0%Q) val_dataset).
  split.
  { unfold Filter.filter_stage. now rewrite !warn_removed_silent. }
  split; [apply Hin|]. split; [apply Hin|]. split; [|split; [|split]].
  - intros e He. split; intros H; apply Hin in H as [_ H];
      eapply Qlt_not_le; eassumption.
  - intros e He. split; intros H; apply Hin; (split; [exact H|]);
      rewrite He; apply Qle_refl.
  - apply Hpos.
  - apply Hpos.
Qed.

Lemma threshold_zero_keeps_only_zero_duration_witness :
  Filter.filter_stage INFO (Some 0%Q)
    [example_of_duration "a" 1%Q; example_of_duration "empty" 0%Q;
     example_of_duration "b" (1 # 2)%Q]
    [example_of_duration "c" 3%Q]
  = ([], ([example_of_duration "empty" 0%Q], [])).
Proof.
  destruct (threshold_zero_keeps_only_zero_duration INFO
              [example_of_duration "a" 1%Q; example_of_duration "empty" 0%Q;
               example_of_duration "b" (1 # 2)%Q]
              [example_of_duration "c" 3%Q])
    as [train' [val' [Hrun [_ [_ [_ [_ [_ Hval]]]]]]]].
  rewrite Hrun. rewrite (Hval ltac:(repeat constructor)).
  unfold Filter.filter_stage in Hrun. injection Hrun as <- _.
  reflexivity.
Defined.

(** ** Example preparer *)

Lemma prepare_example_load_error
  (load : string -> Z -> result (list Q * Z)) (orth : Orthography)
  (proc : Processor) (dargs : DataTrainingArguments)
  (row : CorpusRecord) (ups : Prepare.text_updates) (e : exception) :
  load (file row) 16000%Z = inl e ->
  Prepare.prepare_example load orth proc dargs row ups = inl e.
Proof. intros H. unfold Prepare.prepare_example. now rewrite H. Qed.

Lemma prepare_example_no_rate
  (load : string -> Z -> result (list Q * Z)) (orth : Orthography)
  (proc : Processor) (dargs : DataTrainingArguments)
  (row : CorpusRecord) (ups : Prepare.text_updates) (x : list Q * Z) :
  Prepare.target_sr dargs proc = None ->
  load (file row) 16000%Z = inr x ->
  Prepare.prepare_example load orth proc dargs row ups
  = inl (TypeError "unsupported operand type(s) for /: 'int' and 'NoneType'").
Proof.
  intros Hsr H. unfold Prepare.prepare_example. now rewrite H, Hsr.
Qed.

(** C3. With [target_feature_extractor_sampling_rate] false, [target_sr]
    is [None] and [prepare_example] succeeds on no example: once the
    audio is loaded, the division by [None] raises [TypeError]; mapping
    it over a non-empty split fails. Whatever the flag, the audio is
    loaded with a sample rate of 16000: the result depends on the loader
    only through its value at that rate, and a prepared example holds
    what the loader returned there. *)
Theorem prepare_example_needs_target_rate :
  (forall load orth proc dargs,
     target_feature_extractor_sampling_rate dargs = false ->
     Prepare.target_sr dargs proc = None
     /\ (forall row ups,
           is_ok (Prepare.prepare_example load orth proc dargs row ups) = false)
     /\ (forall row ups x,
           load (file row) 16000%Z = inr x ->
           Prepare.prepare_example load orth proc dargs row ups
           = inl (TypeError
                    "unsupported operand type(s) for /: 'int' and 'NoneType'"))
     /\ (forall rows ups,
           rows <> [] ->
           is_ok (Prepare.map_prepare load orth proc dargs rows ups) = false))
  /\ (forall load orth proc dargs row ups ex ups',
        Prepare.prepare_example load orth proc dargs row ups = inr (ex, ups') ->
        target_feature_extractor_sampling_rate dargs = true
        /\ load (file row) 16000%Z = inr (speech ex, sampling_rate ex))
  /\ (forall load1 load2 orth proc dargs row ups,
        load1 (file row) 16000%Z = load2 (file row) 16000%Z ->
        Prepare.prepare_example load1 orth proc dargs row ups
        = Prepare.prepare_example load2 orth proc dargs row ups).
Proof.
  assert (Hfail : forall load orth proc dargs row ups,
             target_feature_extractor_sampling_rate dargs = false ->
             is_ok (Prepare.prepare_example load orth proc dargs row ups) = false).
  { intros load orth proc dargs row ups Hflag.
    assert (Hsr : Prepare.target_sr dargs proc = None)
      by (unfold Prepare.target_sr; now rewrite Hflag).
    destruct (load (file row) 16000%Z) as [e|x] eqn:E.
    - now rewrite (prepare_example_load_error _ _ _ _ _ _ _ E).
    - now rewrite (prepare_example_no_rate _ _ _ _ _ _ _ Hsr E). }
  split; [|split].
  - intros load orth proc dargs Hflag.
    assert (Hsr : Prepare.target_sr dargs proc = None)
      by (unfold Prepare.target_sr; now rewrite Hflag).
    split; [exact Hsr|]. split; [intros; now apply Hfail|].
    split; [intros row ups x E; now apply (prepare_example_no_rate _ _ _ _ _ _ x)|].
    intros [|row rows] ups Hne; [congruence|]. simpl.
    pose proof (Hfail load orth proc dargs row ups Hflag) as H.
    destruct (Prepare.prepare_example load orth proc dargs row ups);
      [reflexivity | discriminate H].
  - intros load orth proc dargs row ups ex ups' H.
    destruct (target_feature_extractor_sampling_rate dargs) eqn:Hflag.
    + split; [reflexivity|].
      unfold Prepare.prepare_example in H.
      destruct (load (file row) 16000%Z) as [e|[sp sr]]; [discriminate H|].
      simpl in H.
      destruct (Prepare.duration (List.length sp) (Prepare.target_sr dargs proc));
        [discriminate H|].
      simpl in H.
      destruct (String.eqb _ _) in H; injection H as <- _; reflexivity.
    + pose proof (Hfail load orth proc dargs row ups Hflag) as Hf.
      rewrite H in Hf. discriminate Hf.
  - intros load1 load2 orth proc dargs row ups H.
    unfold Prepare.prepare_example. now rewrite H.
Qed.

Lemma prepare_example_needs_target_rate_witness :
  Prepare.prepare_example (fun _ _ => inr ([1%Q; 2%Q], 16000%Z))
    OrthographyM.default (mkProcessor 16000%Z ["a"; "b"] false)
    (mkDataTrainingArguments false None "librispeech" None)
    (mkCorpusRecord "a.wav" 2 "a b") []
  = inl (TypeError "unsupported operand type(s) for /: 'int' and 'NoneType'").
Proof.
  destruct prepare_example_needs_target_rate as [H _].
  destruct (H (fun _ _ => inr ([1%Q; 2%Q], 16000%Z))
              OrthographyM.default (mkProcessor 16000%Z ["a"; "b"] false)
              (mkDataTrainingArguments false None "librispeech" None)
              eq_refl) as [_ [_ [H3 _]]].
  apply (H3 (mkCorpusRecord "a.wav" 2 "a b") [] ([1%Q; 2%Q], 16000%Z)).
  reflexivity.
Defined.

Example prepare_example_with_rate :
  Prepare.prepare_example (fun _ _ => inr ([1%Q; 2%Q], 16000%Z))
    OrthographyM.default (mkProcessor 16000%Z ["a"; "b"] false)
    (mkDataTrainingArguments true None "librispeech" None)
    (mkCorpusRecord "a.wav" 2 " a  b-c ") []
  = inr (mkExample "a.wav" 2 "a b" [1%Q; 2%Q] 16000%Z
           (inject_Z 2 / inject_Z 16000)%Q,
         [(" a  b-c ", "a b")]).
Proof. reflexivity. Qed.

(** ** Batch collator *)

Lemma nth_error_combine {A B : Type} (a : list A) (b : list B) :
  forall i,
    nth_error (combine a b) i
    = match nth_error a i, nth_error b i with
      | Some x, Some y => Some (x, y)
      | _, _ => None
      end.
Proof.
  revert b. induction a as [|x a IH]; intros b i.
  - simpl. now destruct i.
  - destruct b as [|y b]; simpl.
    + destruct i; simpl; [reflexivity|]. now destruct (nth_error a i).
    + destruct i; simpl; [reflexivity | apply IH].
Qed.

Lemma fill_row_repeat (v p : Z) (k : nat) :
  Collator.fill_row v (repeat p k)
    (map (fun m => negb (Z.eqb m 1)) (repeat 0%Z k))
  = repeat v k.
Proof.
  unfold Collator.fill_row.
  induction k as [|k IH]; simpl; [reflexivity | now rewrite IH].
Qed.

(** Filling a right-padded row under its mask keeps the original ids
    and writes the fill value on the padding. *)
Lemma fill_row_padded (v p : Z) (l : list Z) (k : nat) :
  Collator.fill_row v (l ++ repeat p k)%list
    (map (fun m => negb (Z.eqb m 1))
       (repeat 1%Z (List.length l) ++ repeat 0%Z k)%list)
  = (l ++ repeat v k)%list.
Proof.
  induction l as [|x l IH]; simpl.
  - apply fill_row_repeat.
  - unfold Collator.fill_row in *. simpl. now rewrite IH.
Qed.

Lemma masked_fill_nth (t : list (list Z)) (mask : list (list bool)) (v : Z)
  (i : nat) :
  nth_error (Collator.masked_fill t mask v) i
  = match nth_error t i, nth_error mask i with
    | Some r, Some m => Some (Collator.fill_row v r m)
    | _, _ => None
    end.
Proof.
  unfold Collator.masked_fill.
  rewrite nth_error_map, nth_error_combine.
  destruct (nth_error t i); [|reflexivity].
  now destruct (nth_error mask i).
Qed.

(** What [masked_fill] does at one position: the fill value where the
    mask is set, the tensor's own element elsewhere. *)
Lemma fill_row_nth (v : Z) (row : list Z) (mask : list bool) (j : nat)
  (x : Z) (m : bool) :
  nth_error row j = Some x ->
  nth_error mask j = Some m ->
  nth_error (Collator.fill_row v row mask) j = Some (if m then v else x).
Proof.
  intros Hx Hm. unfold Collator.fill_row.
  now rewrite nth_error_map, nth_error_combine, Hx, Hm.
Qed.

Section CollatorRows.

Variable InputBatch : Type.
Variable pad_inputs :
  padding -> option nat -> option nat -> list (list Q) -> result InputBatch.
Variable pad_labels :
  padding -> option nat -> option nat -> list (list Z) -> result LabelsBatch.
Variable pad_id : Z.
Hypothesis Hpad : Collator.pads_right pad_id pad_labels.

(** Row [i] of [batch["labels"]] is the labels of example [i] followed
    by the sentinel up to the padded length. *)
Lemma collator_rows (c : DataCollatorCTCWithPadding) (features : list Feature)
  (batch : InputBatch) (lbls : list (list Z)) :
  Collator.call pad_inputs pad_labels c features = inr (batch, lbls) ->
  exists lb n,
    pad_labels (c_padding c) (max_length_labels c)
      (pad_to_multiple_of_labels c) (map labels features) = inr lb
    /\ lbls = Collator.masked_fill (input_ids lb)
                (Collator.ne1 (attention_mask lb)) Collator.IGNORE
    /\ forall i f, nth_error features i = Some f ->
         List.length (labels f) <= n
         /\ nth_error (attention_mask lb) i
            = Some (repeat 1%Z (List.length (labels f))
                    ++ repeat 0%Z (n - List.length (labels f)))%list
         /\ nth_error lbls i
            = Some (labels f
                    ++ repeat Collator.IGNORE (n - List.length (labels f)))%list.
Proof.
  unfold Collator.call. intros H.
  destruct (pad_inputs _ _ _ _) as [e|b]; [discriminate H|]. simpl in H.
  destruct (pad_labels _ _ _ _) as [e|lb] eqn:E; [discriminate H|].
  simpl in H. injection H as _ <-.
  destruct (Hpad _ _ _ _ _ E) as [n [_ [_ Hn]]].
  exists lb, n. split; [reflexivity|]. split; [reflexivity|].
  intros i f Hf.
  assert (Hl : nth_error (map labels features) i = Some (labels f))
    by (now rewrite nth_error_map, Hf).
  destruct (Hn _ _ Hl) as [Hle [Hids Hmask]].
  split; [exact Hle|]. split; [exact Hmask|].
  rewrite masked_fill_nth, Hids. unfold Collator.ne1.
  rewrite nth_error_map, Hmask. simpl.
  now rewrite fill_row_padded.
Qed.

End CollatorRows.

(** C5. In a batch the collator returns from features whose labels are
    token ids (non-negative), with a tokenizer that pads on the right:
    every row of [labels] has the padded length [n]; at the positions
    from the example's label length up to [n], and only there, the
    label attention mask is not 1; each of these positions holds -100;
    each position below the label length holds the example's own label,
    which is not -100. *)
Theorem collator_masks_only_padding (InputBatch : Type)
  (pad_inputs :
     padding -> option nat -> option nat -> list (list Q) -> result InputBatch)
  (pad_labels :
     padding -> option nat -> option nat -> list (list Z) -> result LabelsBatch)
  (pad_id : Z) (c : DataCollatorCTCWithPadding) (features : list Feature)
  (batch : InputBatch) (lbls : list (list Z)) :
  Collator.pads_right pad_id pad_labels ->
  (forall f, In f features -> Forall (fun x => (0 <= x)%Z) (labels f)) ->
  Collator.call pad_inputs pad_labels c features = inr (batch, lbls) ->
  exists lb n,
    pad_labels (c_padding c) (max_length_labels c)
      (pad_to_multiple_of_labels c) (map labels features) = inr lb
    /\ forall i f, nth_error features i = Some f ->
       exists row mrow,
         nth_error lbls i = Some row
         /\ nth_error (attention_mask lb) i = Some mrow
         /\ List.length row = n /\ List.length mrow = n
         /\ forall j, j < n ->
              (nth_error mrow j <> Some 1%Z <-> List.length (labels f) <= j)
              /\ (nth_error mrow j <> Some 1%Z ->
                  nth_error row j = Some Collator.IGNORE)
              /\ (j < List.length (labels f) ->
                  nth_error row j = nth_error (labels f) j
                  /\ nth_error row j <> Some Collator.IGNORE).
Proof.
  intros Hpad Hids Hcall.
  destruct (collator_rows _ pad_inputs pad_labels pad_id Hpad _ _ _ _ Hcall)
    as [lb [n [Hlb [_ Hrows]]]].
  exists lb, n. split; [exact Hlb|].
  intros i f Hf. destruct (Hrows i f Hf) as [Hle [Hmask Hrow]].
  eexists _, _. split; [exact Hrow|]. split; [exact Hmask|].
  set (l := labels f) in *.
  assert (Hmask_j : forall j, j < n ->
            (nth_error (repeat 1%Z (List.length l)
                        ++ repeat 0%Z (n - List.length l))%list j
             <> Some 1%Z <-> List.length l <= j)).
  { intros j Hj. destruct (Nat.lt_ge_cases j (List.length l)) as [Hlt|Hge].
    - rewrite nth_error_app1 by (now rewrite repeat_length).
      rewrite nth_error_repeat by assumption. split; [congruence | lia].
    - rewrite nth_error_app2 by (now rewrite repeat_length).
      rewrite repeat_length, nth_error_repeat by lia.
      split; [intros _; exact Hge | intros _; discriminate]. }
  split; [rewrite length_app, repeat_length; lia|].
  split; [rewrite length_app, !repeat_length; lia|].
  intros j Hj. split; [apply Hmask_j, Hj|]. split.
  - intros Hm. apply (Hmask_j j Hj) in Hm.
    rewrite nth_error_app2 by assumption.
    apply nth_error_repeat. lia.
  - intros Hlt. rewrite nth_error_app1 by assumption.
    split; [reflexivity|].
    destruct (nth_error l j) as [x|] eqn:Ex; [|discriminate].
    assert (Hx : (0 <= x)%Z).
    { pose proof (Hids f (nth_error_In _ _ Hf)) as Hall.
      rewrite Forall_forall in Hall. apply Hall.
      eapply nth_error_In; exact Ex. }
    unfold Collator.IGNORE. intros [= ->]. lia.
Qed.

(** The reference tokenizer padding follows the right-padding
    convention. *)
Lemma reference_pad_pads_right (pad_id : Z) :
  Collator.pads_right pad_id (Collator.reference_pad pad_id).
Proof.
  intros p ml mult seqs lb. unfold Collator.reference_pad.
  set (tl := Collator.target_length p ml mult seqs).
  set (ids := map (Collator.pad_row pad_id tl) seqs).
  set (width := match ids with [] => 0 | r :: _ => List.length r end).
  destruct (Collator.same_length width ids) eqn:Hsame; [|discriminate].
  intros [= <-]. exists width. simpl.
  split; [apply length_map|]. split; [apply length_map|].
  intros i l Hl.
  assert (Hrow : nth_error ids i = Some (Collator.pad_row pad_id tl l))
    by (unfold ids; now rewrite nth_error_map, Hl).
  assert (Hw : List.length (Collator.pad_row pad_id tl l) = width).
  { unfold Collator.same_length in Hsame. rewrite forallb_forall in Hsame.
    apply Nat.eqb_eq, Hsame. eapply nth_error_In; exact Hrow. }
  unfold Collator.pad_row in Hw. rewrite length_app, repeat_length in Hw.
  assert (Hk : width - List.length l = tl - List.length l) by lia.
  split; [lia|]. rewrite Hk. split; [exact Hrow|].
  now rewrite nth_error_map, Hl.
Qed.

Lemma collator_masks_only_padding_witness :
  let features := [mkFeature [1%Q; 2%Q] [5; 7; 9]%Z; mkFeature [3%Q] [3]%Z] in
  let c := mkCollator Longest None None None None in
  let pad_inputs := fun (_ : padding) (_ _ : option nat) (xs : list (list Q)) =>
                      @inr exception (list (list Q)) xs in
  let pad_labels := Collator.reference_pad 0%Z in
  let lbls := [[5; 7; 9]; [3; -100; -100]]%Z in
  exists lb n,
    pad_labels (c_padding c) (max_length_labels c)
      (pad_to_multiple_of_labels c) (map labels features) = inr lb
    /\ forall i f, nth_error features i = Some f ->
       exists row mrow,
         nth_error lbls i = Some row
         /\ nth_error (attention_mask lb) i = Some mrow
         /\ List.length row = n /\ List.length mrow = n
         /\ forall j, j < n ->
              (nth_error mrow j <> Some 1%Z <-> List.length (labels f) <= j)
              /\ (nth_error mrow j <> Some 1%Z ->
                  nth_error row j = Some Collator.IGNORE)
              /\ (j < List.length (labels f) ->
                  nth_error row j = nth_error (labels f) j
                  /\ nth_error row j <> Some Collator.IGNORE).
Proof.
  intros features c pad_inputs pad_labels lbls.
  apply (collator_masks_only_padding (list (list Q)) pad_inputs pad_labels 0%Z
           c features [[1%Q; 2%Q]; [3%Q]] lbls).
  - apply reference_pad_pads_right.
  - intros f [<- | [<- | []]]; simpl; repeat constructor; lia.
  - reflexivity.
Defined.

Example collator_batch :
  Collator.call (fun _ _ _ xs => inr xs) (Collator.reference_pad 0%Z)
    (mkCollator Longest None None None (Some 4))
    [mkFeature [1%Q; 2%Q] [5; 7; 9]%Z; mkFeature [3%Q] [3]%Z; mkFeature [] []]
  = inr ([[1%Q; 2%Q]; [3%Q]; []],
         [[5; 7; 9; -100]; [3; -100; -100; -100]; [-100; -100; -100; -100]]%Z).
Proof. reflexivity. Qed.

(** ** Training step *)

Lemma count_ext_in {A : Type} (p q : A -> bool) (l : list A) :
  (forall a, In a l -> p a = q a) -> count p l = count q l.
Proof.
  induction l as [|a l IH]; intros H; simpl; [reflexivity|].
  rewrite (H a (or_introl eq_refl)), IH; [reflexivity|].
  intros b Hb. apply H. now right.
Qed.

(** On labels that are token ids or the sentinel, the count the code
    takes ([labels >= 0]) is the count of non-ignored positions. *)
Lemma count_nonneg_non_ignored (ls : list (list Z)) :
  (forall row x, In row ls -> In x row -> x = Collator.IGNORE \/ (0 <= x)%Z) ->
  Trainer.count_nonneg ls = count_non_ignored ls.
Proof.
  intros H. unfold Trainer.count_nonneg, count_non_ignored.
  rewrite count_filter. f_equal. apply count_ext_in.
  intros x Hx. apply in_concat in Hx as [row [Hrow Hx]].
  unfold Collator.IGNORE in *.
  destruct (H row x Hrow Hx) as [-> | Hpos]; [reflexivity|].
  destruct (Z.leb_spec 0 x); [|lia].
  destruct (Z.eqb_spec x (-100)); [lia | reflexivity].
Qed.

(** The reduction policy of the replica mode. In a training step with
    [n_gpu > 1] whose loss was computed: under reduction "mean" the loss
    becomes the sum of the per-replica losses divided by their number;
    under "sum" it becomes their sum divided by the number of label
    positions that do not hold the sentinel (the labels being token ids
    or the sentinel); under any other value the step raises before any
    backward pass, and the exception is the [ValueError] naming the
    value whenever the model exposes its configuration. The two
    quotients are stated where the divisor is not zero: at least one
    replica loss, at least one label. *)
Theorem loss_reduction_policy
  (compute_loss : bool -> Model -> Inputs -> result tensor)
  (self : CTCTrainer) (model : Model) (inputs : Inputs)
  (loss : tensor) (r : string) :
  (1 < n_gpu (args self))%Z ->
  compute_loss (use_cuda_amp self) model inputs = inr loss ->
  module_ctc_loss_reduction model = Some r ->
  (r = "mean" ->
   loss <> [] ->
   Trainer.reduce_loss self model inputs loss
   = inr [(Trainer.tsum loss / inject_Z (Z.of_nat (List.length loss)))%Q])
  /\ (r = "sum" ->
      (forall row x, In row (in_labels inputs) -> In x row ->
                     x = Collator.IGNORE \/ (0 <= x)%Z) ->
      (0 < count_non_ignored (in_labels inputs))%Z ->
      Trainer.reduce_loss self model inputs loss
      = inr [(Trainer.tsum loss
              / inject_Z (count_non_ignored (in_labels inputs)))%Q])
  /\ (r <> "mean" -> r <> "sum" ->
      existsb Trainer.is_backward
        (fst (Trainer.training_step compute_loss self model inputs)) = false
      /\ exists e,
           snd (Trainer.training_step compute_loss self model inputs) = inl e
           /\ forall c, config_ctc_loss_reduction model = Some c ->
                e = ValueError
                      (c ++ " is not valid. Choose one of ['mean', 'sum']")).
Proof.
  intros Hgpu Hloss Hr.
  apply Z.ltb_lt in Hgpu.
  split; [|split].
  - intros -> _. unfold Trainer.reduce_loss. now rewrite Hgpu, Hr.
  - intros -> Hlabels _. unfold Trainer.reduce_loss. rewrite Hgpu, Hr. simpl.
    unfold Trainer.sum_normalised.
    now rewrite count_nonneg_non_ignored.
  - intros Hm Hs. unfold Trainer.training_step. rewrite Hloss.
    unfold Trainer.reduce_loss. rewrite Hgpu, Hr. simpl.
    apply String.eqb_neq in Hm, Hs. rewrite Hm, Hs.
    destruct (config_ctc_loss_reduction model) as [c|]; simpl.
    + split; [reflexivity|]. eexists. split; [reflexivity|].
      now intros c' [= ->].
    + split; [reflexivity|]. eexists. split; [reflexivity|].
      intros c' H. discriminate H.
Qed.

Lemma loss_reduction_policy_witness :
  let self := mkTrainer (mkTrainingArguments "run" 2%Z 1%Z false true)
                false false false in
  let inputs := mkInputs [[4; 8; 15; -100]; [16; 23; -100; -100]]%Z in
  let compute_loss := fun (_ : bool) (_ : Model) (_ : Inputs) =>
                        @inr exception tensor [2%Q; 4%Q] in
  Trainer.reduce_loss self (mkModel (Some "mean") None) inputs [2%Q; 4%Q]
  = inr [((2 + (4 + 0)) / inject_Z 2)%Q]
  /\ Trainer.reduce_loss self (mkModel (Some "sum") None) inputs [2%Q; 4%Q]
     = inr [((2 + (4 + 0)) / inject_Z 5)%Q]
  /\ Trainer.training_step compute_loss self
       (mkModel (Some "max") (Some "max")) inputs
     = ([ModelTrain; PrepareInputs; ComputeLoss false],
        inl (ValueError "max is not valid. Choose one of ['mean', 'sum']")).
Proof.
  intros self inputs compute_loss.
  split; [|split].
  - apply (loss_reduction_policy compute_loss self (mkModel (Some "mean") None)
             inputs [2%Q; 4%Q] "mean"); try reflexivity.
    discriminate.
  - apply (loss_reduction_policy compute_loss self (mkModel (Some "sum") None)
             inputs [2%Q; 4%Q] "sum"); try reflexivity.
    intros row x [<- | [<- | []]] Hx; simpl in Hx;
      repeat (destruct Hx as [<- | Hx]; [(now left) || (right; lia)|]);
      destruct Hx.
  - destruct (loss_reduction_policy compute_loss self
                (mkModel (Some "max") (Some "max")) inputs [2%Q; 4%Q] "max"
                eq_refl eq_refl eq_refl)
      as [_ [_ H]].
    assert (Hm : "max" <> "mean") by discriminate.
    assert (Hs : "max" <> "sum") by discriminate.
    destruct (H Hm Hs) as [_ [e [He Hc]]].
    rewrite (Hc "max" eq_refl) in He.
    destruct (Trainer.training_step compute_loss self
                (mkModel (Some "max") (Some "max")) inputs) as [t res] eqn:E.
    simpl in He. subst res.
    unfold Trainer.training_step in E. simpl in E. now injection E as <-.
Defined.

(** C1. A training step with [n_gpu = 2] on a replica wrapper, a model
    with a [module] attribute and no [config] attribute, whose wrapped
    configuration has the unrecognised reduction "none": the message of
    the [ValueError] is built from [model.config], which the wrapper
    does not have, so the step raises [AttributeError] and not the
    [ValueError]; no backward pass has run. The same step on a model
    that exposes [config] as well raises the [ValueError]. *)
Theorem invalid_reduction_on_wrapper :
  let self := mkTrainer (mkTrainingArguments "run" 2%Z 1%Z false true)
                false false false in
  let inputs := mkInputs [[4; 8; 15; -100]; [16; 23; -100; -100]]%Z in
  let compute_loss := fun (_ : bool) (_ : Model) (_ : Inputs) =>
                        @inr exception tensor [2%Q; 4%Q] in
  Trainer.training_step compute_loss self (mkModel (Some "none") None) inputs
  = ([ModelTrain; PrepareInputs; ComputeLoss false],
     inl (AttributeError "config"))
  /\ Trainer.training_step compute_loss self
       (mkModel (Some "none") (Some "none")) inputs
     = ([ModelTrain; PrepareInputs; ComputeLoss false],
        inl (ValueError "none is not valid. Choose one of ['mean', 'sum']")).
Proof. split; reflexivity. Qed.

Example mean_of_two_replicas :
  Forall2 Qeq (Trainer.mean [2%Q; 4%Q]) [3%Q].
Proof. repeat constructor. Qed.

Example sum_over_five_labels :
  Forall2 Qeq
    (Trainer.sum_normalised [2%Q; 4%Q]
       [[4; 8; 15; -100]; [16; 23; -100; -100]]%Z)
    [(6 # 5)%Q].
Proof. repeat constructor. Qed.

(** C10. When the loss of the step has been computed and reduced to
    [reduced]: with more than one accumulation step, the loss handed to
    the backward pass of the selected backend, and returned, is
    [reduced] divided by the number of accumulation steps; with at most
    one, it is [reduced] itself. *)
Theorem gradient_accumulation_scaling
  (compute_loss : bool -> Model -> Inputs -> result tensor)
  (self : CTCTrainer) (model : Model) (inputs : Inputs)
  (loss reduced : tensor) :
  compute_loss (use_cuda_amp self) model inputs = inr loss ->
  Trainer.reduce_loss self model inputs loss = inr reduced ->
  let g := gradient_accumulation_steps (args self) in
  let before := [ModelTrain; PrepareInputs; ComputeLoss (use_cuda_amp self)] in
  ((1 < g)%Z ->
   Trainer.training_step compute_loss self model inputs
   = ((before ++ [Backward (Trainer.select_backend self)
                    (map (fun x => (x / inject_Z g)%Q) reduced)])%list,
      inr (map (fun x => (x / inject_Z g)%Q) reduced)))
  /\ ((g <= 1)%Z ->
      Trainer.training_step compute_loss self model inputs
      = ((before ++ [Backward (Trainer.select_backend self) reduced])%list,
         inr reduced)).
Proof.
  intros Hloss Hred g before.
  unfold Trainer.training_step. rewrite Hloss, Hred.
  unfold Trainer.accumulate. fold g. split; intros Hg.
  - apply Z.ltb_lt in Hg. now rewrite Hg.
  - apply Z.ltb_ge in Hg. now rewrite Hg.
Qed.

Lemma gradient_accumulation_scaling_witness :
  Trainer.training_step (fun _ _ _ => inr [8%Q])
    (mkTrainer (mkTrainingArguments "run" 1%Z 4%Z false true) true false false)
    (mkModel None (Some "mean")) (mkInputs [])
  = ([ModelTrain; PrepareInputs; ComputeLoss true;
      Backward NativeAmp [(8 / inject_Z 4)%Q]],
     inr [(8 / inject_Z 4)%Q]).
Proof.
  apply (gradient_accumulation_scaling (fun _ _ _ => inr [8%Q])
           (mkTrainer (mkTrainingArguments "run" 1%Z 4%Z false true)
              true false false)
           (mkModel None (Some "mean")) (mkInputs []) [8%Q] [8%Q]);
    reflexivity.
Defined.

(** Backpropagating a quarter of the raw loss, whatever the loss. *)
Example accumulate_four_steps (L : Q) :
  Trainer.training_step (fun _ _ _ => inr [L])
    (mkTrainer (mkTrainingArguments "run" 1%Z 4%Z false true) false false false)
    (mkModel None (Some "mean")) (mkInputs [])
  = ([ModelTrain; PrepareInputs; ComputeLoss false;
      Backward PlainBackward [(L / 4)%Q]],
     inr [(L / 4)%Q]).
Proof. reflexivity. Qed.

(** ** Fold orchestrator *)

Lemma main_is_range_2_4 script_dir df proc load margs dargs targs :
  Main.main script_dir df proc load margs dargs targs
  = Main.main_range script_dir df proc load margs dargs targs 2 4.
Proof. reflexivity. Qed.

(** The update of the output directory, fold by fold, from "run". *)
Example next_output_dir_from_zero :
  Main.next_output_dir 0 "run" = "run_fold_0"
  /\ Main.next_output_dir 1 "run_fold_0" = "run_fold_1"
  /\ Main.next_output_dir 2 "run_fold_1" = "run_fold_2"
  /\ Main.next_output_dir 3 "run_fold_2" = "run_fold_3".
Proof. repeat split. Qed.

(** A loop that starts at fold 0 gives every fold its own directory. *)
Example folds_from_zero :
  Main.train_dirs (fst (demo_main 0 4 "run"))
  = [(0, "run_fold_0"); (1, "run_fold_1"); (2, "run_fold_2"); (3, "run_fold_3")].
Proof. vm_compute. reflexivity. Qed.

(** C2. [main] with output directory "run": the folds it runs are 2 and
    3; fold 2 gets its directory from the base by replacing "_fold_1",
    which "run" does not contain, so both folds train in "run" itself,
    and "run" is what the run leaves in [training_args.output_dir]. *)
Theorem folds_share_output_dir :
  Main.main "/repo" demo_df (mkProcessor 16000%Z ["a"; "b"] false)
    (fun _ _ => inr ([1%Q; 2%Q], 16000%Z))
    (mkModelArguments "m" true false false)
    (mkDataTrainingArguments true None "librispeech" None)
    (mkTrainingArguments "run" 1%Z 1%Z false true)
  = demo_main 2 4 "run"
  /\ Main.train_dirs (fst (demo_main 2 4 "run")) = [(2, "run"); (3, "run")]
  /\ snd (demo_main 2 4 "run") = inr "run".
Proof. repeat split; vm_compute; reflexivity. Qed.

(** * Further properties of the script *)

(** ** Orthography normaliser, every policy *)

Lemma kept_not_removed (o : Orthography) (ws : list string) :
  Forall (fun w => Py.mem w (words_to_remove o) = false) (kept o ws).
Proof.
  unfold kept.
  destruct (Nat.eqb (List.length (words_to_remove o)) 0) eqn:E.
  - apply Nat.eqb_eq, length_zero_iff_nil in E. rewrite E.
    apply Forall_forall. reflexivity.
  - apply Forall_forall. intros w Hw.
    apply filter_In in Hw as [_ Hw]. now apply negb_true_iff in Hw.
Qed.

(** X1. The output of [preprocess_for_training], for every policy and
    text, is a sequence of words separated by exactly one space: it is
    the [" ".join] of its own [split()], each of these words is
    non-empty and free of white space, and none is a word to remove. *)
Theorem preprocess_normalised (o : Orthography) (t : string) :
  let out := OrthographyM.preprocess_for_training o t in
  out = Py.join " " (Py.split out)
  /\ Forall is_word (Py.split out)
  /\ Forall (fun w => Py.mem w (words_to_remove o) = false) (Py.split out).
Proof.
  simpl. rewrite preprocess_unfold.
  assert (Hw : Forall is_word (kept o (Py.split (translated o t))))
    by apply kept_Forall, split_words.
  rewrite (split_join _ Hw).
  split; [reflexivity|]. split; [exact Hw | apply kept_not_removed].
Qed.

(** X2. Idempotence does not depend on the three named policies: it
    holds for every policy whose translation table is stable, that is,
    no replacement string contains a character the table translates and
    the space is not translated. *)
Theorem preprocess_idempotent_any_stable (o : Orthography) (t : string) :
  stable_table (translation_table o) ->
  OrthographyM.preprocess_for_training o
    (OrthographyM.preprocess_for_training o t)
  = OrthographyM.preprocess_for_training o t.
Proof. intros H. now apply preprocess_idempotent_stable. Qed.

Lemma preprocess_idempotent_any_stable_witness :
  let o := mkOrthography true None (Some "|")
             [("-"%char, " "); ("_"%char, " "); ("'"%char, "")] ["sil"; "sp"] in
  OrthographyM.preprocess_for_training o
    (OrthographyM.preprocess_for_training o " it's sil a_b-c  sp ")
  = OrthographyM.preprocess_for_training o " it's sil a_b-c  sp ".
Proof.
  intros o. apply (preprocess_idempotent_any_stable o).
  split; [|reflexivity].
  intros c. destruct c as [[] [] [] [] [] [] [] []]; reflexivity.
Defined.

Lemma split_from_blank (s : string) :
  Py.all_chars Py.is_space s = true -> Py.split_from "" s = [].
Proof.
  induction s as [|c s IH]; simpl; [reflexivity|].
  intros H. apply andb_true_iff in H as [Hc Hs].
  rewrite Hc. simpl. now apply IH.
Qed.

(** X3. A text made of white space only is normalised to the empty
    string, by every policy whose table translates no white-space
    character. *)
Theorem preprocess_blank (o : Orthography) (t : string) :
  (forall c, Py.is_space c = true -> Py.is_key (translation_table o) c = false) ->
  Py.all_chars Py.is_space t = true ->
  OrthographyM.preprocess_for_training o t = "".
Proof.
  intros Hkeys Ht. rewrite preprocess_unfold.
  rewrite translated_fixed.
  - unfold Py.split. rewrite split_from_blank by assumption.
    unfold kept. now destruct (Nat.eqb _ _).
  - eapply all_chars_weaken; [|exact Ht].
    intros c Hc. unfold not_key. now rewrite (Hkeys c Hc).
Qed.

Lemma preprocess_blank_witness :
  OrthographyM.preprocess_for_training
    (mkOrthography true None (Some "|") [("-"%char, " ")] []) "    " = "".
Proof.
  apply preprocess_blank; [|reflexivity].
  intros c. destruct c as [[] [] [] [] [] [] [] []];
    simpl; intros H; try reflexivity; discriminate H.
Defined.

(** No character of the output is one the table translates, when the
    table is stable. *)
Lemma preprocess_no_key (o : Orthography) (t : string) :
  stable_table (translation_table o) ->
  Py.all_chars (not_key (translation_table o))
    (OrthographyM.preprocess_for_training o t) = true.
Proof.
  intros Hs. rewrite preprocess_unfold.
  apply join_chars; [now destruct Hs|].
  apply kept_Forall. apply split_from_chars; [reflexivity|].
  eapply all_chars_weaken; [|apply (translated_no_key o Hs)].
  intros c Hc. rewrite Hc. apply orb_true_r.
Qed.

(** X4. Under the "timit" and "buckwalter" policies the normalised text
    contains no hyphen, whatever the input. *)
Theorem preprocess_removes_hyphens (script_dir name : string)
  (o : Orthography) (t : string) :
  name = "timit" \/ name = "buckwalter" ->
  OrthographyM.from_name script_dir name = inr o ->
  Py.all_chars (fun c => negb (Ascii.eqb c "-"))
    (OrthographyM.preprocess_for_training o t) = true.
Proof.
  intros Hname Ho.
  assert (Hs : stable_table (translation_table o))
    by (eapply from_name_stable; exact Ho).
  assert (Ht : translation_table o = [("-"%char, " ")]).
  { destruct Hname as [-> | ->]; injection Ho as <-; reflexivity. }
  eapply all_chars_weaken; [|apply (preprocess_no_key o t Hs)].
  intros c. rewrite Ht. unfold not_key, Py.is_key. simpl.
  now destruct (Ascii.eqb c "-").
Qed.

Lemma preprocess_removes_hyphens_witness :
  Py.all_chars (fun c => negb (Ascii.eqb c "-"))
    (OrthographyM.preprocess_for_training
       (mkOrthography false (Some "/repo/vocab/buckwalter.json") (Some "/")
          [("-"%char, " ")] ["sil"])
       "quarter-century-old -- sil") = true.
Proof.
  apply (preprocess_removes_hyphens "/repo" "buckwalter");
    [right; reflexivity | reflexivity].
Defined.

(** ** Vocabulary cleaner *)

Lemma clean_fixed (ic : bool) (chars : list ascii) (s : string) :
  Py.all_chars (fun c => Py.is_space c || Prepare.in_vocabulary ic chars c) s
  = true ->
  Prepare.clean ic chars s = s.
Proof.
  induction s as [|c s IH]; simpl; [reflexivity|].
  intros H. apply andb_true_iff in H as [Hc Hs].
  now rewrite Hc, IH.
Qed.

Lemma clean_kept (ic : bool) (chars : list ascii) (s : string) :
  Py.all_chars (fun c => Py.is_space c || Prepare.in_vocabulary ic chars c)
    (Prepare.clean ic chars s) = true.
Proof.
  induction s as [|c s IH]; simpl; [reflexivity|].
  destruct (Py.is_space c || Prepare.in_vocabulary ic chars c) eqn:E;
    [simpl; now rewrite E | exact IH].
Qed.

(** Cleaning only deletes characters: what holds of every character of
    a text holds of every character of the cleaned text. *)
Lemma clean_chars (p : ascii -> bool) (ic : bool) (chars : list ascii)
  (s : string) :
  Py.all_chars p s = true -> Py.all_chars p (Prepare.clean ic chars s) = true.
Proof.
  induction s as [|c s IH]; simpl; [reflexivity|].
  intros H. apply andb_true_iff in H as [Hc Hs].
  destruct (Py.is_space c || Prepare.in_vocabulary ic chars c);
    [simpl; now rewrite Hc, IH | now apply IH].
Qed.

(** X5. The vocabulary cleaner leaves only white space and vocabulary
    characters, changes a text iff the text has some other character,
    and is idempotent. *)
Theorem clean_only_vocabulary (ic : bool) (chars : list ascii) (s : string) :
  let allowed := fun c => Py.is_space c || Prepare.in_vocabulary ic chars c in
  Py.all_chars allowed (Prepare.clean ic chars s) = true
  /\ (Prepare.clean ic chars s = s <-> Py.all_chars allowed s = true)
  /\ Prepare.clean ic chars (Prepare.clean ic chars s) = Prepare.clean ic chars s.
Proof.
  simpl. split; [apply clean_kept|]. split.
  - split; [|apply clean_fixed].
    intros H. rewrite <- H. apply clean_kept.
  - apply clean_fixed, clean_kept.
Qed.

(** X6. The characters the cleaner allows are exactly the tokens of the
    vocabulary that are one character long; longer tokens (and the
    empty one) contribute nothing. *)
Theorem vocabulary_chars_single (toks : list string) (c : ascii) :
  In c (Prepare.vocabulary_chars toks) <-> In (String c "") toks.
Proof.
  induction toks as [|t toks IH]; simpl; [reflexivity|].
  destruct t as [|a [|b t']]; simpl; rewrite IH; split.
  - intros H. now right.
  - intros [H | H]; [discriminate H | exact H].
  - intros [-> | H]; [now left | now right].
  - intros [[= ->] | H]; [now left | now right].
  - intros H. now right.
  - intros [H | H]; [discriminate H | exact H].
Qed.

(** ** Example preparer, successful runs *)

Lemma prepare_example_ok
  (load : string -> Z -> result (list Q * Z)) (orth : Orthography)
  (proc : Processor) (dargs : DataTrainingArguments)
  (row : CorpusRecord) (ups : Prepare.text_updates)
  (ex : Example) (ups' : Prepare.text_updates) :
  Prepare.prepare_example load orth proc dargs row ups = inr (ex, ups') ->
  let new_text :=
    Prepare.clean (tok_do_lower_case proc)
      (Prepare.vocabulary_chars (vocab proc))
      (OrthographyM.preprocess_for_training orth (text row)) in
  exists sp sr d,
    load (file row) 16000%Z = inr (sp, sr)
    /\ Prepare.duration (List.length sp) (Prepare.target_sr dargs proc) = inr d
    /\ ex = mkExample (file row) (split row) new_text sp sr d
    /\ ups' = if String.eqb new_text (text row) then ups
              else (ups ++ [(text row, new_text)])%list.
Proof.
  intros H new_text. unfold Prepare.prepare_example in H.
  destruct (load (file row) 16000%Z) as [e|[sp sr]] eqn:El; [discriminate H|].
  simpl in H.
  destruct (Prepare.duration (List.length sp) (Prepare.target_sr dargs proc))
    as [e|d] eqn:Ed; [discriminate H|].
  simpl in H. fold new_text in H.
  exists sp, sr, d. split; [reflexivity|]. split; [exact Ed|].
  destruct (String.eqb_spec new_text (text row)) as [E|E];
    injection H as <- <-; [rewrite E|]; split; reflexivity.
Qed.

(** X7. When [prepare_example] returns: the example keeps the row's
    file and split, holds the loaded samples and rate, and its text is
    the normalised and cleaned transcript; the pair (original, new
    text) is appended to the update log exactly when the text changed,
    and the log is otherwise left as it was. *)
Theorem prepare_example_result
  (load : string -> Z -> result (list Q * Z)) (orth : Orthography)
  (proc : Processor) (dargs : DataTrainingArguments)
  (row : CorpusRecord) (ups : Prepare.text_updates)
  (ex : Example) (ups' : Prepare.text_updates) :
  Prepare.prepare_example load orth proc dargs row ups = inr (ex, ups') ->
  ex_file ex = file row /\ ex_split ex = split row
  /\ load (file row) 16000%Z = inr (speech ex, sampling_rate ex)
  /\ ex_text ex
     = Prepare.clean (tok_do_lower_case proc)
         (Prepare.vocabulary_chars (vocab proc))
         (OrthographyM.preprocess_for_training orth (text row))
  /\ (ex_text ex = text row -> ups' = ups)
  /\ (ex_text ex <> text row ->
      ups' = (ups ++ [(text row, ex_text ex)])%list).
Proof.
  intros H. destruct (prepare_example_ok _ _ _ _ _ _ _ _ H)
    as [sp [sr [d [Hload [_ [-> ->]]]]]].
  simpl. repeat (split; [reflexivity || exact Hload|]).
  split; intros E.
  - apply String.eqb_eq in E. now rewrite E.
  - apply String.eqb_neq in E. now rewrite E.
Qed.

Lemma prepare_example_result_witness :
  let ex := mkExample "a.wav" 2 "a b" [1%Q; 2%Q] 16000%Z
              (inject_Z 2 / inject_Z 16000)%Q in
  ex_file ex = "a.wav" /\ ex_split ex = 2
  /\ inr ([1%Q; 2%Q], 16000%Z) = @inr exception _ (speech ex, sampling_rate ex)
  /\ ex_text ex
     = Prepare.clean false (Prepare.vocabulary_chars ["a"; "b"])
         (OrthographyM.preprocess_for_training OrthographyM.default " a  b-c ")
  /\ (ex_text ex = " a  b-c " -> [(" a  b-c ", "a b")] = [])
  /\ (ex_text ex <> " a  b-c " ->
      [(" a  b-c ", "a b")] = ([] ++ [(" a  b-c ", ex_text ex)])%list).
Proof.
  intros ex.
  apply (prepare_example_result (fun _ _ => inr ([1%Q; 2%Q], 16000%Z))
           OrthographyM.default (mkProcessor 16000%Z ["a"; "b"] false)
           (mkDataTrainingArguments true None "librispeech" None)
           (mkCorpusRecord "a.wav" 2 " a  b-c ") [] ex [(" a  b-c ", "a b")]).
  reflexivity.
Defined.

Lemma preprocess_spaces (o : Orthography) (t : string) :
  Py.all_chars (fun c => Ascii.eqb c " " || not_space c)
    (OrthographyM.preprocess_for_training o t) = true.
Proof.
  rewrite preprocess_unfold. apply join_chars; [reflexivity|].
  apply kept_Forall.
  pose proof (split_words (translated o t)) as Hw.
  rewrite Forall_forall in *. intros w Hin.
  destruct (Hw w Hin) as [_ Hns].
  eapply all_chars_weaken; [|exact Hns].
  intros c Hc. rewrite Hc. apply orb_true_r.
Qed.

Lemma all_chars_both (p q : ascii -> bool) (s : string) :
  Py.all_chars p s = true -> Py.all_chars q s = true ->
  Py.all_chars (fun c => p c && q c) s = true.
Proof.
  induction s as [|c s IH]; simpl; [reflexivity|].
  intros Hp Hq. apply andb_true_iff in Hp as [Hpc Hps].
  apply andb_true_iff in Hq as [Hqc Hqs].
  now rewrite Hpc, Hqc, IH.
Qed.

(** X8. Every character of a prepared example's text is the plain space
    or a character of the vocabulary (up to case when the tokenizer
    lower-cases): tabs, line breaks and out-of-vocabulary characters of
    the transcript never reach the tokenizer. *)
Theorem prepared_text_alphabet
  (load : string -> Z -> result (list Q * Z)) (orth : Orthography)
  (proc : Processor) (dargs : DataTrainingArguments)
  (row : CorpusRecord) (ups : Prepare.text_updates)
  (ex : Example) (ups' : Prepare.text_updates) :
  Prepare.prepare_example load orth proc dargs row ups = inr (ex, ups') ->
  Py.all_chars
    (fun c => Ascii.eqb c " "
              || Prepare.in_vocabulary (tok_do_lower_case proc)
                   (Prepare.vocabulary_chars (vocab proc)) c)
    (ex_text ex) = true.
Proof.
  intros H. destruct (prepare_example_ok _ _ _ _ _ _ _ _ H)
    as [sp [sr [d [_ [_ [-> _]]]]]].
  simpl.
  eapply all_chars_weaken;
    [|apply all_chars_both;
      [apply clean_kept | apply clean_chars, preprocess_spaces]].
  intros c Hc. simpl in Hc. apply andb_true_iff in Hc as [H1 H2].
  unfold not_space in H2.
  destruct (Ascii.eqb c " "); [reflexivity|].
  destruct (Py.is_space c); [discriminate H2 | exact H1].
Qed.

Lemma prepared_text_alphabet_witness :
  Py.all_chars
    (fun c => Ascii.eqb c " "
              || Prepare.in_vocabulary true (Prepare.vocabulary_chars ["a"; "b"; "<pad>"]) c)
    "A b" = true.
Proof.
  apply (prepared_text_alphabet (fun _ _ => inr ([1%Q; 2%Q], 16000%Z))
           OrthographyM.default (mkProcessor 16000%Z ["a"; "b"; "<pad>"] true)
           (mkDataTrainingArguments true None "librispeech" None)
           (mkCorpusRecord "a.wav" 2 "A,	b!") []
           (mkExample "a.wav" 2 "A b" [1%Q; 2%Q] 16000%Z
              (inject_Z 2 / inject_Z 16000)%Q)
           [("A,	b!", "A b")]).
  reflexivity.
Defined.



Lemma map_prepare_cons
  (load : string -> Z -> result (list Q * Z)) (orth : Orthography)
  (proc : Processor) (dargs : DataTrainingArguments)
  (row : CorpusRecord) (rows : list CorpusRecord)
  (ups : Prepare.text_updates) (exs : list Example)
  (ups' : Prepare.text_updates) :
  Prepare.map_prepare load orth proc dargs (row :: rows) ups = inr (exs, ups') ->
  exists ex ups1 rest,
    Prepare.prepare_example load orth proc dargs row ups = inr (ex, ups1)
    /\ Prepare.map_prepare load orth proc dargs rows ups1 = inr (rest, ups')
    /\ exs = ex :: rest.
Proof.
  simpl. intros H.
  destruct (Prepare.prepare_example load orth proc dargs row ups)
    as [e|[ex ups1]] eqn:E1; [discriminate H|].
  simpl in H.
  destruct (Prepare.map_prepare load orth proc dargs rows ups1)
    as [e|[rest ups2]] eqn:E2; [discriminate H|].
  simpl in H. injection H as <- <-.
  exists ex, ups1, rest. split; [reflexivity|]. split; [exact E2 | reflexivity].
Qed.

(** X10. When mapping [prepare_example] over a split returns, it gives
    one example per row, in the order of the rows: the texts of the
    examples are the transcripts of the rows, normalised and cleaned,
    in that order; the update log is the given one extended by at most
    one entry per row. *)
Theorem map_prepare_shape
  (load : string -> Z -> result (list Q * Z)) (orth : Orthography)
  (proc : Processor) (dargs : DataTrainingArguments)
  (rows : list CorpusRecord) (ups : Prepare.text_updates)
  (exs : list Example) (ups' : Prepare.text_updates) :
  Prepare.map_prepare load orth proc dargs rows ups = inr (exs, ups') ->
  List.length exs = List.length rows
  /\ map ex_text exs
     = map (fun row =>
              Prepare.clean (tok_do_lower_case proc)
                (Prepare.vocabulary_chars (vocab proc))
                (OrthographyM.preprocess_for_training orth (text row)))
         rows
  /\ exists new, ups' = (ups ++ new)%list
                 /\ List.length new <= List.length rows.
Proof.
  revert ups exs ups'.
  induction rows as [|row rows IH]; intros ups exs ups' H.
  - simpl in H. injection H as <- <-. repeat split.
    exists []. split; [now rewrite app_nil_r | reflexivity].
  - destruct (map_prepare_cons _ _ _ _ _ _ _ _ _ H)
      as [ex [ups1 [rest [Hex [Hrest ->]]]]].
    destruct (IH _ _ _ Hrest) as [Hlen [Htext [new [-> Hnew]]]].
    destruct (prepare_example_ok _ _ _ _ _ _ _ _ Hex)
      as [sp [sr [d [_ [_ [-> Hups]]]]]].
    cbn [map List.length ex_text]. rewrite Hlen, Htext. repeat split.
    destruct (String.eqb _ (text row)); subst ups1.
    + exists new. split; [reflexivity | lia].
    + eexists (_ :: new). rewrite <- app_assoc. split; [reflexivity|].
      simpl. lia.
Qed.

Lemma map_prepare_shape_witness :
  let rows := [mkCorpusRecord "a.wav" 2 "a b"; mkCorpusRecord "b.wav" 3 "b-c"] in
  let exs := [mkExample "a.wav" 2 "a b" [1%Q] 16000%Z
                (inject_Z 1 / inject_Z 16000)%Q;
              mkExample "b.wav" 3 "b" [1%Q] 16000%Z
                (inject_Z 1 / inject_Z 16000)%Q] in
  List.length exs = List.length rows
  /\ map ex_text exs
     = map (fun row =>
              Prepare.clean false (Prepare.vocabulary_chars ["a"; "b"])
                (OrthographyM.preprocess_for_training OrthographyM.default
                   (text row)))
         rows
  /\ exists new, [("b-c", "b")] = ([] ++ new)%list
                 /\ List.length new <= List.length rows.
Proof.
  intros rows exs.
  apply (map_prepare_shape (fun _ _ => inr ([1%Q], 16000%Z))
           OrthographyM.default (mkProcessor 16000%Z ["a"; "b"] false)
           (mkDataTrainingArguments true None "librispeech" None)
           rows [] exs [("b-c", "b")]).
  reflexivity.
Defined.

Lemma prepare_example_ok_any_log
  (load : string -> Z -> result (list Q * Z)) (orth : Orthography)
  (proc : Processor) (dargs : DataTrainingArguments)
  (row : CorpusRecord) (ups1 ups2 : Prepare.text_updates) :
  is_ok (Prepare.prepare_example load orth proc dargs row ups1)
  = is_ok (Prepare.prepare_example load orth proc dargs row ups2).
Proof.
  unfold Prepare.prepare_example.
  destruct (load (file row) 16000%Z) as [e|x]; [reflexivity|]. simpl.
  destruct (Prepare.duration _ _) as [e|d]; [reflexivity|]. simpl.
  now destruct (String.eqb _ _).
Qed.

(** X11. Mapping [prepare_example] over a split is all or nothing: it
    returns iff every row of the split can be prepared on its own, so
    one unreadable file or one failing division aborts the split. *)
Theorem map_prepare_all_or_nothing
  (load : string -> Z -> result (list Q * Z)) (orth : Orthography)
  (proc : Processor) (dargs : DataTrainingArguments)
  (rows : list CorpusRecord) (ups : Prepare.text_updates) :
  is_ok (Prepare.map_prepare load orth proc dargs rows ups) = true
  <-> forall row, In row rows ->
        is_ok (Prepare.prepare_example load orth proc dargs row []) = true.
Proof.
  revert ups. induction rows as [|row rows IH]; intros ups.
  - simpl. split; [intros _ row [] | reflexivity].
  - cbn [Prepare.map_prepare]. split.
    + intros H r [<- | Hr].
      * rewrite (prepare_example_ok_any_log load orth proc dargs row [] ups).
        destruct (Prepare.prepare_example load orth proc dargs row ups);
          [discriminate H | reflexivity].
      * destruct (Prepare.prepare_example load orth proc dargs row ups)
          as [e|[ex ups1]]; [discriminate H|].
        simpl in H. apply (IH ups1); [|exact Hr].
        destruct (Prepare.map_prepare load orth proc dargs rows ups1);
          [discriminate H | reflexivity].
    + intros H.
      pose proof (H row (or_introl eq_refl)) as Hrow.
      rewrite (prepare_example_ok_any_log load orth proc dargs row [] ups)
        in Hrow.
      destruct (Prepare.prepare_example load orth proc dargs row ups)
        as [e|[ex ups1]]; [discriminate Hrow|].
      simpl.
      assert (Hrest : is_ok (Prepare.map_prepare load orth proc dargs rows ups1)
                      = true).
      { apply IH. intros r Hr. apply H. now right. }
      destruct (Prepare.map_prepare load orth proc dargs rows ups1);
        [discriminate Hrest | reflexivity].
Qed.

(** ** Dataset filter, further *)

Lemma filter_count_complement {A : Type} (p : A -> bool) (l : list A) :
  List.length (filter p l) + count (fun a => negb (p a)) l = List.length l.
Proof.
  induction l as [|a l IH]; simpl; [reflexivity|].
  destruct (p a); simpl; lia.
Qed.

(** X12. The filter removes exactly the examples longer than the
    threshold (kept + longer = original), raising the threshold never
    removes an example that was kept, and filtering a filtered dataset
    at the same threshold changes nothing. *)
Theorem filter_threshold_monotone (T1 T2 : Q) (ds : list Example) :
  List.length (filter (Filter.filter_by_max_duration T1) ds)
  + count (fun e => negb (Qle_bool (duration_in_seconds e) T1)) ds
  = List.length ds
  /\ ((T1 <= T2)%Q ->
      forall e, In e (filter (Filter.filter_by_max_duration T1) ds) ->
                In e (filter (Filter.filter_by_max_duration T2) ds))
  /\ filter (Filter.filter_by_max_duration T1)
       (filter (Filter.filter_by_max_duration T1) ds)
     = filter (Filter.filter_by_max_duration T1) ds.
Proof.
  split; [apply (filter_count_complement (Filter.filter_by_max_duration T1))|].
  split; [|apply filter_idem].
  intros Hle e He. apply filter_In in He as [Hin Hd]. apply filter_In.
  split; [exact Hin|]. unfold Filter.filter_by_max_duration in *.
  apply Qle_bool_iff. apply Qle_bool_iff in Hd.
  eapply Qle_trans; eassumption.
Qed.

(** ** Batch collator, the whole batch *)

Lemma list_eq_map_nth {A B : Type} (f : A -> B) (l : list A) :
  forall l' : list B,
    List.length l' = List.length l ->
    (forall i a, nth_error l i = Some a -> nth_error l' i = Some (f a)) ->
    l' = map f l.
Proof.
  induction l as [|a l IH]; intros l' Hlen H.
  - destruct l'; [reflexivity | discriminate Hlen].
  - destruct l' as [|b l']; [discriminate Hlen|]. simpl.
    pose proof (H 0 a eq_refl) as H0. simpl in H0. injection H0 as ->.
    f_equal. apply IH; [now injection Hlen|].
    intros i x Hx. exact (H (S i) x Hx).
Qed.

Lemma masked_fill_length (t : list (list Z)) (mask : list (list bool)) (v : Z) :
  List.length (Collator.masked_fill t mask v)
  = Nat.min (List.length t) (List.length mask).
Proof. unfold Collator.masked_fill. now rewrite length_map, length_combine. Qed.

Lemma collator_whole_batch (InputBatch : Type)
  (pad_inputs :
     padding -> option nat -> option nat -> list (list Q) -> result InputBatch)
  (pad_labels :
     padding -> option nat -> option nat -> list (list Z) -> result LabelsBatch)
  (pad_id : Z) (c : DataCollatorCTCWithPadding) (features : list Feature)
  (batch : InputBatch) (lbls : list (list Z)) :
  Collator.pads_right pad_id pad_labels ->
  Collator.call pad_inputs pad_labels c features = inr (batch, lbls) ->
  exists lb n,
    pad_labels (c_padding c) (max_length_labels c)
      (pad_to_multiple_of_labels c) (map labels features) = inr lb
    /\ (forall f, In f features -> List.length (labels f) <= n)
    /\ input_ids lb = map (id_padded pad_id n) features
    /\ lbls = map (ignore_padded n) features.
Proof.
  intros Hpad Hcall.
  destruct (collator_rows _ pad_inputs pad_labels pad_id Hpad _ _ _ _ Hcall)
    as [lb [n' [Hlb [Hl Hrows]]]].
  destruct (Hpad _ _ _ _ _ Hlb) as [n [Hlen1 [Hlen2 Hn]]].
  rewrite length_map in Hlen1, Hlen2.
  exists lb, n. split; [exact Hlb|].
  assert (Hnth : forall i f, nth_error features i = Some f ->
            nth_error (map labels features) i = Some (labels f))
    by (intros i f Hf; now rewrite nth_error_map, Hf).
  split; [|split].
  - intros f Hf. apply In_nth_error in Hf as [i Hi].
    now destruct (Hn _ _ (Hnth _ _ Hi)).
  - apply list_eq_map_nth; [exact Hlen1|].
    intros i f Hf. now destruct (Hn _ _ (Hnth _ _ Hf)) as [_ [Hids _]].
  - apply list_eq_map_nth.
    + rewrite Hl, masked_fill_length. unfold Collator.ne1.
      rewrite length_map. lia.
    + intros i f Hf.
      destruct (Hn _ _ (Hnth _ _ Hf)) as [_ [Hids Hmask]].
      rewrite Hl, masked_fill_nth, Hids. unfold Collator.ne1.
      rewrite nth_error_map, Hmask. simpl.
      unfold ignore_padded. now rewrite fill_row_padded.
Qed.

(** X13. With a tokenizer that pads on the right, [batch["labels"]] has
    one row per feature, in the order of the features, and all rows
    have the same width: row [i] is the labels of feature [i] followed
    by -100 up to that width, which no label sequence exceeds. *)
Theorem collator_labels_rows (InputBatch : Type)
  (pad_inputs :
     padding -> option nat -> option nat -> list (list Q) -> result InputBatch)
  (pad_labels :
     padding -> option nat -> option nat -> list (list Z) -> result LabelsBatch)
  (pad_id : Z) (c : DataCollatorCTCWithPadding) (features : list Feature)
  (batch : InputBatch) (lbls : list (list Z)) :
  Collator.pads_right pad_id pad_labels ->
  Collator.call pad_inputs pad_labels c features = inr (batch, lbls) ->
  exists n,
    (forall f, In f features -> List.length (labels f) <= n)
    /\ lbls = map (fun f => (labels f
                             ++ repeat (-100)%Z (n - List.length (labels f)))%list)
                features
    /\ List.length lbls = List.length features
    /\ Forall (fun row => List.length row = n) lbls.
Proof.
  intros Hpad Hcall.
  destruct (collator_whole_batch _ _ _ _ _ _ _ _ Hpad Hcall)
    as [lb [n [_ [Hle [_ ->]]]]].
  exists n. split; [exact Hle|]. split; [reflexivity|].
  split; [apply length_map|].
  apply Forall_forall. intros row Hrow.
  apply in_map_iff in Hrow as [f [<- Hf]].
  unfold ignore_padded. rewrite length_app, repeat_length.
  specialize (Hle f Hf). lia.
Qed.

Lemma collator_labels_rows_witness :
  let features := [mkFeature [1%Q; 2%Q] [5; 7; 9]%Z; mkFeature [3%Q] [3]%Z] in
  let lbls := [[5; 7; 9]; [3; -100; -100]]%Z in
  exists n,
    (forall f, In f features -> List.length (labels f) <= n)
    /\ lbls = map (fun f => (labels f
                             ++ repeat (-100)%Z (n - List.length (labels f)))%list)
                features
    /\ List.length lbls = List.length features
    /\ Forall (fun row => List.length row = n) lbls.
Proof.
  intros features lbls.
  apply (collator_labels_rows (list (list Q)) (fun _ _ _ xs => inr xs)
           (Collator.reference_pad 0%Z) 0%Z
           (mkCollator Longest None None None None) features
           [[1%Q; 2%Q]; [3%Q]] lbls).
  - apply reference_pad_pads_right.
  - reflexivity.
Defined.

Lemma filter_nonneg_padded (l : list Z) (k : nat) :
  Forall (fun x => (0 <= x)%Z) l ->
  filter (fun x => Z.leb 0 x) (l ++ repeat Collator.IGNORE k)%list = l.
Proof.
  intros Hl. rewrite filter_app.
  assert (H1 : filter (fun x => Z.leb 0 x) l = l).
  { induction Hl as [|x l Hx Hl IH]; simpl; [reflexivity|].
    apply Z.leb_le in Hx. now rewrite Hx, IH. }
  assert (H2 : filter (fun x => Z.leb 0 x) (repeat Collator.IGNORE k) = []).
  { induction k as [|k IH]; simpl; [reflexivity | exact IH]. }
  now rewrite H1, H2, app_nil_r.
Qed.

Lemma filter_nonneg_batch (n : nat) (features : list Feature) :
  (forall f, In f features -> Forall (fun x => (0 <= x)%Z) (labels f)) ->
  filter (fun x => Z.leb 0 x) (List.concat (map (ignore_padded n) features))
  = List.concat (map labels features).
Proof.
  induction features as [|f fs IH]; intros Hids; simpl; [reflexivity|].
  rewrite filter_app. unfold ignore_padded at 1.
  rewrite filter_nonneg_padded by (apply Hids; now left).
  rewrite IH; [reflexivity|].
  intros g Hg. apply Hids. now right.
Qed.

(** X14. On a batch of the collator whose labels are token ids, the
    divisor of the "sum" reduction, [(labels >= 0).sum()], is the total
    number of labels of the batch's features: the padding is never
    counted. *)
Theorem collator_batch_label_count (InputBatch : Type)
  (pad_inputs :
     padding -> option nat -> option nat -> list (list Q) -> result InputBatch)
  (pad_labels :
     padding -> option nat -> option nat -> list (list Z) -> result LabelsBatch)
  (pad_id : Z) (c : DataCollatorCTCWithPadding) (features : list Feature)
  (batch : InputBatch) (lbls : list (list Z)) :
  Collator.pads_right pad_id pad_labels ->
  (forall f, In f features -> Forall (fun x => (0 <= x)%Z) (labels f)) ->
  Collator.call pad_inputs pad_labels c features = inr (batch, lbls) ->
  Trainer.count_nonneg lbls
  = Z.of_nat (List.length (List.concat (map labels features))).
Proof.
  intros Hpad Hids Hcall.
  destruct (collator_whole_batch _ _ _ _ _ _ _ _ Hpad Hcall)
    as [lb [n [_ [_ [_ ->]]]]].
  unfold Trainer.count_nonneg. now rewrite filter_nonneg_batch.
Qed.

Lemma collator_batch_label_count_witness :
  Trainer.count_nonneg [[5; 7; 9]; [3; -100; -100]]%Z
  = Z.of_nat (List.length (List.concat
       (map labels [mkFeature [1%Q; 2%Q] [5; 7; 9]%Z; mkFeature [3%Q] [3]%Z]))).
Proof.
  apply (collator_batch_label_count (list (list Q)) (fun _ _ _ xs => inr xs)
           (Collator.reference_pad 0%Z) 0%Z
           (mkCollator Longest None None None None)
           [mkFeature [1%Q; 2%Q] [5; 7; 9]%Z; mkFeature [3%Q] [3]%Z]
           [[1%Q; 2%Q]; [3%Q]]).
  - apply reference_pad_pads_right.
  - intros f [<- | [<- | []]]; simpl; repeat constructor; lia.
  - reflexivity.
Defined.

Lemma restore_row (pad_id : Z) (l : list Z) (k : nat) :
  Forall (fun x => (0 <= x)%Z) l ->
  map (fun x => if Z.eqb x (-100) then pad_id else x)
    (l ++ repeat Collator.IGNORE k)%list
  = (l ++ repeat pad_id k)%list.
Proof.
  intros Hl. rewrite map_app. f_equal.
  - induction Hl as [|x l Hx Hl IH]; simpl; [reflexivity|].
    rewrite IH. destruct (Z.eqb_spec x (-100)); [lia | reflexivity].
  - induction k as [|k IH]; simpl; [reflexivity | now rewrite IH].
Qed.

(** X15. The first step of [compute_metrics] undoes the collator's
    masking: replacing -100 by the pad token id in [batch["labels"]]
    gives back the ids the tokenizer had padded, when the labels are
    token ids. *)
Theorem restore_pad_inverts_masking (InputBatch : Type)
  (pad_inputs :
     padding -> option nat -> option nat -> list (list Q) -> result InputBatch)
  (pad_labels :
     padding -> option nat -> option nat -> list (list Z) -> result LabelsBatch)
  (pad_id : Z) (c : DataCollatorCTCWithPadding) (features : list Feature)
  (batch : InputBatch) (lbls : list (list Z)) :
  Collator.pads_right pad_id pad_labels ->
  (forall f, In f features -> Forall (fun x => (0 <= x)%Z) (labels f)) ->
  Collator.call pad_inputs pad_labels c features = inr (batch, lbls) ->
  exists lb,
    pad_labels (c_padding c) (max_length_labels c)
      (pad_to_multiple_of_labels c) (map labels features) = inr lb
    /\ Metrics.restore_pad pad_id lbls = input_ids lb.
Proof.
  intros Hpad Hids Hcall.
  destruct (collator_whole_batch _ _ _ _ _ _ _ _ Hpad Hcall)
    as [lb [n [Hlb [_ [Hin Hout]]]]].
  exists lb. split; [exact Hlb|]. rewrite Hin, Hout.
  unfold Metrics.restore_pad. rewrite map_map.
  apply map_ext_in. intros f Hf.
  unfold ignore_padded, id_padded. apply restore_row, Hids, Hf.
Qed.

Lemma restore_pad_inverts_masking_witness :
  exists lb,
    Collator.reference_pad 0%Z Longest None None [[5; 7; 9]; [3]]%Z = inr lb
    /\ Metrics.restore_pad 0%Z [[5; 7; 9]; [3; -100; -100]]%Z = input_ids lb.
Proof.
  apply (restore_pad_inverts_masking (list (list Q)) (fun _ _ _ xs => inr xs)
           (Collator.reference_pad 0%Z) 0%Z
           (mkCollator Longest None None None None)
           [mkFeature [1%Q; 2%Q] [5; 7; 9]%Z; mkFeature [3%Q] [3]%Z]
           [[1%Q; 2%Q]; [3%Q]]).
  - apply reference_pad_pads_right.
  - intros f [<- | [<- | []]]; simpl; repeat constructor; lia.
  - reflexivity.
Defined.

(** ** Training step, further *)




Lemma tdiv_length (t : tensor) (n : Z) :
  List.length (Trainer.tdiv t n) = List.length t.
Proof. apply length_map. Qed.

(** X18. In replica mode ([n_gpu > 1]) a step that returns has reduced
    the per-replica losses to one number: the loss it backpropagates
    and returns is a scalar, however many replicas reported a loss. *)
Theorem replica_loss_is_scalar
  (compute_loss : bool -> Model -> Inputs -> result tensor)
  (self : CTCTrainer) (model : Model) (inputs : Inputs) (loss : tensor) :
  (1 < n_gpu (args self))%Z ->
  snd (Trainer.training_step compute_loss self model inputs) = inr loss ->
  List.length loss = 1.
Proof.
  intros Hgpu. apply Z.ltb_lt in Hgpu. unfold Trainer.training_step.
  destruct (compute_loss (use_cuda_amp self) model inputs) as [e|l];
    [discriminate|].
  destruct (Trainer.reduce_loss self model inputs l) as [e|red] eqn:E;
    [discriminate|].
  cbn [snd]. intros [= <-].
  assert (Hred : List.length red = 1).
  { unfold Trainer.reduce_loss in E. rewrite Hgpu in E.
    destruct (module_ctc_loss_reduction model) as [r|]; [|discriminate E].
    simpl in E.
    destruct (String.eqb r "mean"); [now injection E as <-|].
    destruct (String.eqb r "sum"); [now injection E as <-|].
    destruct (config_ctc_loss_reduction model); discriminate E. }
  unfold Trainer.accumulate.
  destruct (Z.ltb 1 (gradient_accumulation_steps (args self)));
    [now rewrite tdiv_length | exact Hred].
Qed.

Lemma replica_loss_is_scalar_witness :
  List.length [((1 + (2 + (3 + 0))) / inject_Z 3 / inject_Z 2)%Q] = 1.
Proof.
  apply (replica_loss_is_scalar (fun _ _ _ => inr [1%Q; 2%Q; 3%Q])
           (mkTrainer (mkTrainingArguments "run" 3%Z 2%Z false true)
              false false false)
           (mkModel (Some "mean") None) (mkInputs [])); reflexivity.
Defined.

(** ** Fold orchestrator, further *)

Lemma replace_skip_done (old new : string) (s : string) :
  forall k, String.length s <= k -> Py.replace_skip old new k s = "".
Proof.
  induction s as [|c s IH]; intros k H; simpl; [reflexivity|].
  simpl in H. destruct k as [|k]; [lia|]. apply IH. lia.
Qed.

Lemma starts_with_self (s : string) : Py.starts_with s s = true.
Proof.
  induction s as [|c s IH]; simpl; [reflexivity|].
  now rewrite Ascii.eqb_refl, IH.
Qed.

Lemma replace_skip_at_match (old' new : string) :
  Py.replace_skip (String "_" old') new 0 (String "_" old') = new.
Proof.
  cbn [Py.replace_skip]. rewrite starts_with_self.
  rewrite replace_skip_done; [apply append_nil_r|].
  simpl. lia.
Qed.

Lemma replace_skip_no_underscore (old' new : string) (base : string) :
  forall rest,
    no_underscore base = true ->
    Py.replace_skip (String "_" old') new 0 (base ++ rest)
    = base ++ Py.replace_skip (String "_" old') new 0 rest.
Proof.
  unfold no_underscore.
  induction base as [|c base IH]; intros rest H; [reflexivity|].
  simpl in H. apply andb_true_iff in H as [Hc Hb].
  apply negb_true_iff in Hc. rewrite Ascii.eqb_sym in Hc.
  change (String c base ++ rest) with (String c (base ++ rest)).
  cbn [Py.replace_skip Py.starts_with]. rewrite Hc. simpl andb. cbn iota.
  now rewrite IH.
Qed.

Lemma next_output_dir_S (i : nat) (d : string) :
  Main.next_output_dir (S i) d
  = Py.replace_skip ("_fold_" ++ Py.str_of_nat i)
      ("_fold_" ++ Py.str_of_nat (S i)) 0 d.
Proof.
  unfold Main.next_output_dir. cbn [Nat.eqb].
  replace (S i - 1) with i by lia. reflexivity.
Qed.

Lemma output_dir_advances (i : nat) (base : string) :
  no_underscore base = true ->
  Main.next_output_dir (S i) (base ++ "_fold_" ++ Py.str_of_nat i)
  = base ++ "_fold_" ++ Py.str_of_nat (S i).
Proof.
  intros H. rewrite next_output_dir_S.
  change ("_fold_" ++ Py.str_of_nat i)
    with (String "_" ("fold_" ++ Py.str_of_nat i)).
  rewrite replace_skip_no_underscore by assumption.
  now rewrite replace_skip_at_match.
Qed.

Lemma output_dir_unchanged (i : nat) (d : string) :
  no_underscore d = true -> Main.next_output_dir (S i) d = d.
Proof.
  intros H. rewrite next_output_dir_S.
  change ("_fold_" ++ Py.str_of_nat i)
    with (String "_" ("fold_" ++ Py.str_of_nat i)).
  rewrite <- (append_nil_r d) at 1.
  rewrite replace_skip_no_underscore by assumption.
  simpl. apply append_nil_r.
Qed.

(** X19. Going from fold [i] to fold [i+1] renames the directory as
    intended when it carries the suffix of fold [i] and has no
    underscore before it: base_fold_i becomes base_fold_(i+1). *)
Theorem next_output_dir_renames_suffix (i : nat) (base : string) :
  no_underscore base = true ->
  Main.next_output_dir (S i) (base ++ "_fold_" ++ Py.str_of_nat i)
  = base ++ "_fold_" ++ Py.str_of_nat (S i).
Proof. apply output_dir_advances. Qed.

Lemma next_output_dir_renames_suffix_witness :
  Main.next_output_dir 10 ("exp-7/run" ++ "_fold_" ++ Py.str_of_nat 9)
  = "exp-7/run" ++ "_fold_" ++ Py.str_of_nat 10.
Proof. apply (next_output_dir_renames_suffix 9 "exp-7/run"). reflexivity. Defined.

(** X20. For a fold other than fold 0, a directory name without any
    underscore is left as it is: no suffix is added, since only the
    branch of fold 0 appends one. *)
Theorem next_output_dir_keeps_unsuffixed (i : nat) (d : string) :
  no_underscore d = true -> Main.next_output_dir (S i) d = d.
Proof. apply output_dir_unchanged. Qed.

Lemma next_output_dir_keeps_unsuffixed_witness :
  Main.next_output_dir 2 "out/model" = "out/model".
Proof. apply (next_output_dir_keeps_unsuffixed 1 "out/model"). reflexivity. Defined.

Lemma collect_app {A : Type} (f : event -> option A) (a b : trace) :
  collect f (a ++ b)%list = (collect f a ++ collect f b)%list.
Proof. apply flat_map_app. Qed.

Lemma train_dirs_collect (t : trace) : Main.train_dirs t = collect pick_train t.
Proof.
  induction t as [|e t IH]; [reflexivity|].
  destruct e; simpl; now rewrite IH.
Qed.

Section QuietSelection.

Context {A : Type} (f : event -> option A).
Hypothesis Hq : quiet f.

Lemma collect_log (logger l : level) (m : message) :
  collect f (log logger l m) = [].
Proof.
  destruct Hq as [Hlog _]. unfold log.
  destruct (Nat.leb _ _); simpl; [now rewrite Hlog | reflexivity].
Qed.

Lemma collect_debug_updates (logger : level) (ups : Prepare.text_updates) :
  collect f (Main.debug_updates logger ups) = [].
Proof.
  destruct Hq as [Hlog _]. unfold Main.debug_updates.
  destruct logger; try reflexivity.
  induction ups as [|u ups IH]; simpl; [reflexivity|].
  now rewrite Hlog.
Qed.

Lemma collect_freeze (margs : ModelArguments) :
  collect f (Main.freeze margs) = [].
Proof.
  destruct Hq as [_ [_ [_ [H1 [H2 _]]]]]. unfold Main.freeze.
  destruct (freeze_feature_extractor margs), (freeze_base_model margs);
    simpl; now rewrite ?H1, ?H2.
Qed.

Lemma collect_before_folds (dargs : DataTrainingArguments) :
  collect f (Main.before_folds dargs) = [].
Proof.
  destruct Hq as [_ [Hp [Hr _]]]. unfold Main.before_folds. simpl.
  now rewrite Hp, Hr.
Qed.

(** What a selection sees of one fold: nothing when the fold raises,
    the dataset sizes and the training run when it returns. *)
Lemma collect_fold (df : list CorpusRecord) (proc : Processor)
  (load : string -> Z -> result (list Q * Z)) (margs : ModelArguments)
  (dargs : DataTrainingArguments) (targs : TrainingArguments)
  (logger : level) (orth : Orthography) (i : nat) (dir : string) :
  let r := Main.fold df proc load margs dargs targs logger orth i dir in
  match snd r with
  | inl _ => collect f (fst r) = []
  | inr d =>
      d = Main.next_output_dir i dir
      /\ exists train val ups1 ups2,
           Prepare.map_prepare load orth proc dargs (train_rows i df) []
           = inr (train, ups1)
           /\ Prepare.map_prepare load orth proc dargs (val_rows i df) ups1
              = inr (val, ups2)
           /\ let kept := snd (Filter.filter_stage logger
                                 (max_duration_in_seconds dargs) train val) in
              collect f (fst r)
              = collect f [PrepareDataset (List.length (fst kept))
                             (List.length (snd kept));
                           Train i d]
  end.
Proof.
  destruct Hq as [_ [Hp [_ [_ [_ Hpred]]]]].
  unfold Main.fold. fold (train_rows i df). fold (val_rows i df).
  destruct (Prepare.map_prepare load orth proc dargs (train_rows i df) [])
    as [e|[train ups1]] eqn:E1; [simpl; now rewrite Hp|].
  destruct (Prepare.map_prepare load orth proc dargs (val_rows i df) ups1)
    as [e|[val ups2]] eqn:E2; [simpl; now rewrite Hp|].
  cbn [snd fst]. split; [reflexivity|].
  exists train, val, ups1, ups2. split; [reflexivity|]. split; [exact E2|].
  cbn zeta. rewrite !collect_app.
  rewrite filter_stage_silent, !collect_log, collect_debug_updates, collect_freeze.
  destruct (load_best_model_at_end targs); simpl;
    now rewrite ?Hp, ?Hpred, ?app_nil_r.
Qed.

End QuietSelection.

Lemma pick_train_quiet : quiet pick_train.
Proof. repeat split. Qed.

Lemma pick_sizes_quiet : quiet pick_sizes.
Proof. repeat split. Qed.

(** The training runs in the trace of [main]: fold 2 in the directory
    renamed from the configured one, then fold 3 in the directory
    renamed from that of fold 2, when it returns; the preparation being
    the only step of a fold modelled as raising, a trace that ends in
    an exception holds no run or that of fold 2. *)
Lemma main_train_dirs (script_dir : string) (df : list CorpusRecord)
  (proc : Processor) (load : string -> Z -> result (list Q * Z))
  (margs : ModelArguments) (dargs : DataTrainingArguments)
  (targs : TrainingArguments) :
  let r := Main.main script_dir df proc load margs dargs targs in
  let d2 := Main.next_output_dir 2 (output_dir targs) in
  let d3 := Main.next_output_dir 3 d2 in
  match snd r with
  | inr d => d = d3 /\ Main.train_dirs (fst r) = [(2, d2); (3, d3)]
  | inl _ => Main.train_dirs (fst r) = []
             \/ Main.train_dirs (fst r) = [(2, d2)]
  end.
Proof.
  unfold Main.main, Main.main_range.
  destruct (OrthographyM.from_name script_dir (Py.lower (orthography dargs)))
    as [e|orth]; [left; reflexivity|].
  change (Main.range 2 Main.k) with [2; 3]. cbn [Main.run_folds].
  set (logger := configure_logger margs targs).
  pose proof (collect_fold pick_train pick_train_quiet df proc load margs dargs
                targs logger orth 2 (output_dir targs)) as H2.
  destruct (Main.fold df proc load margs dargs targs logger orth 2
              (output_dir targs)) as [t2 [e|d2]].
  - cbn [snd fst] in *. left. rewrite train_dirs_collect, collect_app, H2.
    now rewrite collect_before_folds by apply pick_train_quiet.
  - cbn [snd fst] in H2. destruct H2 as [-> [tr [va [u1 [u2 [_ [_ H2]]]]]]].
    cbn zeta in H2.
    pose proof (collect_fold pick_train pick_train_quiet df proc load margs
                  dargs targs logger orth 3
                  (Main.next_output_dir 2 (output_dir targs))) as H3.
    destruct (Main.fold df proc load margs dargs targs logger orth 3
                (Main.next_output_dir 2 (output_dir targs))) as [t3 [e|d3]].
    + cbn [snd fst] in *. right.
      rewrite train_dirs_collect, !collect_app, H2, H3.
      now rewrite collect_before_folds by apply pick_train_quiet.
    + cbn [snd fst] in *.
      destruct H3 as [-> [tr' [va' [u1' [u2' [_ [_ H3]]]]]]]. cbn zeta in H3.
      split; [reflexivity|].
      rewrite train_dirs_collect, !collect_app, H2, H3.
      now rewrite collect_before_folds by apply pick_train_quiet.
Qed.

(** X21. Whatever the corpus and the configuration, a run of [main]
    that returns has trained fold 2 and then fold 3, and no other fold:
    folds 0 and 1 are not trained. *)
Theorem main_trains_folds_2_3 (script_dir : string) (df : list CorpusRecord)
  (proc : Processor) (load : string -> Z -> result (list Q * Z))
  (margs : ModelArguments) (dargs : DataTrainingArguments)
  (targs : TrainingArguments) (d : string) :
  snd (Main.main script_dir df proc load margs dargs targs) = inr d ->
  trained_folds (fst (Main.main script_dir df proc load margs dargs targs))
  = [2; 3].
Proof.
  intros Hok.
  pose proof (main_train_dirs script_dir df proc load margs dargs targs) as H.
  cbn zeta in H. rewrite Hok in H. destruct H as [_ H].
  unfold trained_folds. now rewrite H.
Qed.

Lemma main_trains_folds_2_3_witness :
  trained_folds (fst (demo_main 2 4 "run")) = [2; 3].
Proof.
  apply (main_trains_folds_2_3 "/repo" demo_df
           (mkProcessor 16000%Z ["a"; "b"] false)
           (fun _ _ => inr ([1%Q; 2%Q], 16000%Z))
           (mkModelArguments "m" true false false)
           (mkDataTrainingArguments true None "librispeech" None)
           (mkTrainingArguments "run" 1%Z 1%Z false true) "run").
  vm_compute. reflexivity.
Defined.

(** X22. A run configured with an output directory that already ends
    in "_fold_1" (and has no other underscore) and that returns has
    trained fold 2 in base_fold_2 and fold 3 in base_fold_3, and leaves
    base_fold_3 as the configured directory. *)
Theorem main_resumed_run_dirs (script_dir : string) (df : list CorpusRecord)
  (proc : Processor) (load : string -> Z -> result (list Q * Z))
  (margs : ModelArguments) (dargs : DataTrainingArguments)
  (targs : TrainingArguments) (base d : string) :
  output_dir targs = base ++ "_fold_1" ->
  no_underscore base = true ->
  snd (Main.main script_dir df proc load margs dargs targs) = inr d ->
  d = base ++ "_fold_3"
  /\ Main.train_dirs (fst (Main.main script_dir df proc load margs dargs targs))
     = [(2, base ++ "_fold_2"); (3, base ++ "_fold_3")].
Proof.
  intros Hdir Hbase Hok.
  pose proof (main_train_dirs script_dir df proc load margs dargs targs) as H.
  cbn zeta in H. rewrite Hok, Hdir in H.
  change (base ++ "_fold_1") with (base ++ "_fold_" ++ Py.str_of_nat 1) in H.
  rewrite (output_dir_advances 1 base Hbase) in H.
  rewrite (output_dir_advances 2 base Hbase) in H.
  exact H.
Qed.

Lemma main_resumed_run_dirs_witness :
  Main.train_dirs (fst (demo_main 2 4 "run_fold_1"))
  = [(2, "run" ++ "_fold_2"); (3, "run" ++ "_fold_3")].
Proof.
  apply (main_resumed_run_dirs "/repo" demo_df
           (mkProcessor 16000%Z ["a"; "b"] false)
           (fun _ _ => inr ([1%Q; 2%Q], 16000%Z))
           (mkModelArguments "m" true false false)
           (mkDataTrainingArguments true None "librispeech" None)
           (mkTrainingArguments "run_fold_1" 1%Z 1%Z false true)
           "run" "run_fold_3"); vm_compute; reflexivity.
Defined.

(** X23. A run configured with an output directory without underscore
    and that returns has trained both of its folds in that very
    directory, for every corpus and configuration. *)
Theorem main_unsuffixed_dir_shared (script_dir : string)
  (df : list CorpusRecord) (proc : Processor)
  (load : string -> Z -> result (list Q * Z))
  (margs : ModelArguments) (dargs : DataTrainingArguments)
  (targs : TrainingArguments) (d : string) :
  no_underscore (output_dir targs) = true ->
  snd (Main.main script_dir df proc load margs dargs targs) = inr d ->
  d = output_dir targs
  /\ Main.train_dirs (fst (Main.main script_dir df proc load margs dargs targs))
     = [(2, output_dir targs); (3, output_dir targs)].
Proof.
  intros Hdir Hok.
  pose proof (main_train_dirs script_dir df proc load margs dargs targs) as H.
  cbn zeta in H. rewrite Hok in H.
  rewrite (output_dir_unchanged 1 _ Hdir) in H.
  rewrite (output_dir_unchanged 2 _ Hdir) in H.
  exact H.
Qed.

Lemma main_unsuffixed_dir_shared_witness :
  Main.train_dirs (fst (demo_main 2 4 "out/model"))
  = [(2, "out/model"); (3, "out/model")].
Proof.
  apply (main_unsuffixed_dir_shared "/repo" demo_df
           (mkProcessor 16000%Z ["a"; "b"] false)
           (fun _ _ => inr ([1%Q; 2%Q], 16000%Z))
           (mkModelArguments "m" true false false)
           (mkDataTrainingArguments true None "librispeech" None)
           (mkTrainingArguments "out/model" 1%Z 1%Z false true)
           "out/model"); vm_compute; reflexivity.
Defined.

(** X24. With the level [configure_logger] sets, a warning is always
    emitted, an info message is dropped exactly when logging is not
    verbose and the process is not the main one, and a debug message is
    dropped exactly when logging is not verbose. *)
Theorem logger_levels (margs : ModelArguments) (targs : TrainingArguments)
  (m : message) :
  let logger := configure_logger margs targs in
  log logger WARNING m = [Log WARNING m]
  /\ (log logger INFO m = []
      <-> verbose_logging margs = false /\ is_main_process targs = false)
  /\ (log logger DEBUG m = [] <-> verbose_logging margs = false).
Proof.
  unfold configure_logger.
  destruct (verbose_logging margs), (is_main_process targs); simpl;
    repeat split; try reflexivity; try discriminate;
    intros H; try discriminate H; destruct H; discriminate.
Qed.

Lemma map_prepare_length
  (load : string -> Z -> result (list Q * Z)) (orth : Orthography)
  (proc : Processor) (dargs : DataTrainingArguments)
  (rows : list CorpusRecord) :
  forall ups exs ups',
    Prepare.map_prepare load orth proc dargs rows ups = inr (exs, ups') ->
    List.length exs = List.length rows.
Proof.
  induction rows as [|row rows IH]; intros ups exs ups' H.
  - simpl in H. now injection H as <- _.
  - destruct (map_prepare_cons _ _ _ _ _ _ _ _ _ H)
      as [ex [ups1 [rest [_ [Hrest ->]]]]].
    simpl. now rewrite (IH _ _ _ Hrest).
Qed.

(** X25. A fold that returns hands to [prepare_dataset] a training set
    no larger than the rows of the other splits and a validation set no
    larger than the rows of split [i], these two groups of rows
    dividing the corpus; without a duration threshold the sizes are
    exactly theirs. *)
Theorem fold_sizes_partition (df : list CorpusRecord) (proc : Processor)
  (load : string -> Z -> result (list Q * Z)) (margs : ModelArguments)
  (dargs : DataTrainingArguments) (targs : TrainingArguments)
  (logger : level) (orth : Orthography) (i : nat) (dir d : string) :
  snd (Main.fold df proc load margs dargs targs logger orth i dir) = inr d ->
  exists n m,
    prepared_sizes
      (fst (Main.fold df proc load margs dargs targs logger orth i dir))
    = [(n, m)]
    /\ n <= List.length (train_rows i df)
    /\ m <= List.length (val_rows i df)
    /\ (max_duration_in_seconds dargs = None ->
        n = List.length (train_rows i df) /\ m = List.length (val_rows i df))
    /\ List.length (train_rows i df) + List.length (val_rows i df)
       = List.length df.
Proof.
  intros Hok.
  pose proof (collect_fold pick_sizes pick_sizes_quiet df proc load margs dargs
                targs logger orth i dir) as H.
  cbn zeta in H. rewrite Hok in H.
  destruct H as [_ [train [val [u1 [u2 [Ht [Hv H]]]]]]].
  apply map_prepare_length in Ht, Hv.
  eexists _, _. split; [exact H|].
  assert (Hpart : List.length (train_rows i df) + List.length (val_rows i df)
                  = List.length df).
  { unfold train_rows, val_rows. rewrite Nat.add_comm.
    apply (filter_length (fun r => Nat.eqb (split r) i)). }
  destruct (max_duration_in_seconds dargs) as [T|];
    cbn [Filter.filter_stage snd fst].
  - pose proof (filter_length_le (Filter.filter_by_max_duration T) train) as H1.
    pose proof (filter_length_le (Filter.filter_by_max_duration T) val) as H2.
    split; [lia|]. split; [lia|]. split; [discriminate | exact Hpart].
  - split; [lia|]. split; [lia|]. split; [|exact Hpart].
    intros _. split; assumption.
Qed.

Lemma fold_sizes_partition_witness :
  exists n m,
    prepared_sizes
      (fst (Main.fold demo_df (mkProcessor 16000%Z ["a"; "b"] false)
              (fun _ _ => inr ([1%Q; 2%Q], 16000%Z))
              (mkModelArguments "m" true false false)
              (mkDataTrainingArguments true None "librispeech" None)
              (mkTrainingArguments "run" 1%Z 1%Z false true)
              INFO OrthographyM.default 2 "run"))
    = [(n, m)]
    /\ n <= List.length (train_rows 2 demo_df)
    /\ m <= List.length (val_rows 2 demo_df)
    /\ (@None Q = None ->
        n = List.length (train_rows 2 demo_df)
        /\ m = List.length (val_rows 2 demo_df))
    /\ List.length (train_rows 2 demo_df) + List.length (val_rows 2 demo_df)
       = List.length demo_df.
Proof.
  apply (fold_sizes_partition demo_df (mkProcessor 16000%Z ["a"; "b"] false)
           (fun _ _ => inr ([1%Q; 2%Q], 16000%Z))
           (mkModelArguments "m" true false false)
           (mkDataTrainingArguments true None "librispeech" None)
           (mkTrainingArguments "run" 1%Z 1%Z false true)
           INFO OrthographyM.default 2 "run" "run").
  vm_compute. reflexivity.
Defined.

(** X26. [main] resolves the orthography name after lower-casing it:
    with a name that is supported up to case the run gets past the
    name check and starts fold 2. *)
Theorem main_orthography_any_case (script_dir : string)
  (df : list CorpusRecord) (proc : Processor)
  (load : string -> Z -> result (list Q * Z))
  (margs : ModelArguments) (dargs : DataTrainingArguments)
  (targs : TrainingArguments) :
  OrthographyM.supported (Py.lower (orthography dargs)) ->
  exists t,
    fst (Main.main script_dir df proc load margs dargs targs)
    = (Main.before_folds dargs ++ Print "Fold 2" :: t)%list.
Proof.
  intros Hs. destruct (from_name_supported script_dir _ Hs) as [orth Ho].
  unfold Main.main, Main.main_range. rewrite Ho.
  change (Main.range 2 Main.k) with [2; 3]. cbn [Main.run_folds].
  set (logger := configure_logger margs targs).
  assert (Hfold : exists t2,
            fst (Main.fold df proc load margs dargs targs logger orth 2
                   (output_dir targs)) = Print "Fold 2" :: t2).
  { unfold Main.fold.
    destruct (Prepare.map_prepare load orth proc dargs _ [])
      as [e|[train ups1]]; [now exists []|].
    destruct (Prepare.map_prepare load orth proc dargs _ ups1)
      as [e|[val ups2]]; [now exists []|].
    eexists. reflexivity. }
  destruct Hfold as [t2 Ht2].
  destruct (Main.fold df proc load margs dargs targs logger orth 2
              (output_dir targs)) as [t [e|d2]]; cbn [fst snd] in *; subst t.
  - now exists t2.
  - eexists. cbn [app]. reflexivity.
Qed.

Lemma main_orthography_any_case_witness :
  exists t,
    fst (Main.main "/repo" demo_df (mkProcessor 16000%Z ["a"; "b"] false)
           (fun _ _ => inr ([1%Q; 2%Q], 16000%Z))
           (mkModelArguments "m" true false false)
           (mkDataTrainingArguments true None "TIMIT" None)
           (mkTrainingArguments "run" 1%Z 1%Z false true))
    = (Main.before_folds (mkDataTrainingArguments true None "TIMIT" None)
       ++ Print "Fold 2" :: t)%list.
Proof.
  apply (main_orthography_any_case "/repo" demo_df
           (mkProcessor 16000%Z ["a"; "b"] false)
           (fun _ _ => inr ([1%Q; 2%Q], 16000%Z))
           (mkModelArguments "m" true false false)
           (mkDataTrainingArguments true None "TIMIT" None)
           (mkTrainingArguments "run" 1%Z 1%Z false true)).
  right; left; reflexivity.
Defined.

(** ** Sampling-rate assertion of [prepare_dataset] *)

Lemma nodup_constant (r : Z) (l : list Z) :
  Forall (eq r) l -> l <> [] -> nodup Z.eq_dec l = [r].
Proof.
  induction 1 as [|x l <- Hl IH]; intros Hne; [congruence|].
  simpl. destruct l as [|y l'].
  - reflexivity.
  - destruct (in_dec Z.eq_dec r (y :: l')) as [_|Hn].
    + apply IH. discriminate.
    + exfalso. apply Hn. inversion Hl; subst. now left.
Qed.

(** X27. The assertion of [prepare_dataset] holds of a batch exactly
    when the batch is not empty and all its sampling rates are one and
    the same: an empty batch fails it as a mixed one does. *)
Theorem rates_consistent_iff (rates : list Z) :
  rates_consistent rates = true
  <-> rates <> [] /\ exists r, Forall (eq r) rates.
Proof.
  unfold rates_consistent. split.
  - intros H. apply Nat.eqb_eq in H.
    destruct (nodup Z.eq_dec rates) as [|r [|r' t]] eqn:E; try discriminate H.
    split.
    + intros ->. discriminate E.
    + exists r. apply Forall_forall. intros x Hx.
      apply (nodup_In Z.eq_dec) in Hx. rewrite E in Hx.
      destruct Hx as [-> | []]. reflexivity.
  - intros [Hne [r Hr]]. now rewrite (nodup_constant r rates Hr Hne).
Qed.

Lemma map_prepare_rates
  (load : string -> Z -> result (list Q * Z)) (orth : Orthography)
  (proc : Processor) (dargs : DataTrainingArguments)
  (rows : list CorpusRecord) :
  (forall f sr x r, load f sr = inr (x, r) -> r = sr) ->
  forall ups exs ups',
    Prepare.map_prepare load orth proc dargs rows ups = inr (exs, ups') ->
    Forall (fun e => sampling_rate e = 16000%Z) exs.
Proof.
  intros Hload. induction rows as [|row rows IH]; intros ups exs ups' H.
  - simpl in H. injection H as <- _. constructor.
  - destruct (map_prepare_cons _ _ _ _ _ _ _ _ _ H)
      as [ex [ups1 [rest [Hex [Hrest ->]]]]].
    constructor; [|exact (IH _ _ _ Hrest)].
    destruct (prepare_example_ok _ _ _ _ _ _ _ _ Hex)
      as [sp [sr [d [Hl [_ [-> _]]]]]].
    simpl. exact (Hload _ _ _ _ Hl).
Qed.

(** X28. When the loader returns the rate it was asked for, every
    prepared example has a sampling rate of 16000, so the assertion of
    [prepare_dataset] holds of every non-empty batch drawn from a
    prepared split. *)
Theorem prepared_batches_pass_assertion
  (load : string -> Z -> result (list Q * Z)) (orth : Orthography)
  (proc : Processor) (dargs : DataTrainingArguments)
  (rows : list CorpusRecord) (ups : Prepare.text_updates)
  (exs : list Example) (ups' : Prepare.text_updates) (batch : list Example) :
  (forall f sr x r, load f sr = inr (x, r) -> r = sr) ->
  Prepare.map_prepare load orth proc dargs rows ups = inr (exs, ups') ->
  incl batch exs ->
  batch <> [] ->
  rates_consistent (map sampling_rate batch) = true.
Proof.
  intros Hload Hmap Hincl Hne.
  pose proof (map_prepare_rates load orth proc dargs rows Hload _ _ _ Hmap)
    as Hall.
  unfold rates_consistent.
  rewrite (nodup_constant 16000%Z); [reflexivity | |].
  - apply Forall_forall. intros r Hr.
    apply in_map_iff in Hr as [e [<- He]].
    rewrite Forall_forall in Hall. symmetry. apply Hall, Hincl, He.
  - destruct batch; [congruence | discriminate].
Qed.

Lemma prepared_batches_pass_assertion_witness :
  rates_consistent
    (map sampling_rate
       [mkExample "b.wav" 3 "b" [1%Q] 16000%Z (inject_Z 1 / inject_Z 16000)%Q])
  = true.
Proof.
  apply (prepared_batches_pass_assertion (fun _ sr => inr ([1%Q], sr))
           OrthographyM.default (mkProcessor 16000%Z ["a"; "b"] false)
           (mkDataTrainingArguments true None "librispeech" None)
           [mkCorpusRecord "a.wav" 2 "a b"; mkCorpusRecord "b.wav" 3 "b-c"] []
           [mkExample "a.wav" 2 "a b" [1%Q] 16000%Z
              (inject_Z 1 / inject_Z 16000)%Q;
            mkExample "b.wav" 3 "b" [1%Q] 16000%Z
              (inject_Z 1 / inject_Z 16000)%Q]
           [("b-c", "b")]).
  - intros f sr x r [= _ <-]. reflexivity.
  - reflexivity.
  - intros e [<- | []]. right; left; reflexivity.
  - discriminate.
Defined.
